(** * Daily News Digest: a shallow embedding of [news_digest_script.py]

    The script fetches news articles and sports scores over HTTP, renders
    them into one HTML document and mails it.  This development embeds the
    program in Gallina, function by function, and states the properties of
    its specification against that embedding.

    Conventions.
    - A Python [str] is the [string] of its UTF-8 bytes.  A character is
      a byte that is not a continuation byte together with the
      continuation bytes that follow it; lengths, indices and slices
      count characters, not bytes.
    - Values decoded from JSON are dynamically typed: [value].
    - A Python exception is an [exn]; a computation that may raise returns
      an [outcome].
    - Printing, HTTP requests and the SMTP hand-over are effects on an
      explicit [world], threaded by the monad [M]. *)

From Stdlib Require Import String Ascii List ZArith Lia Bool PeanoNat.
Import ListNotations.
Local Open Scope list_scope.
Local Open Scope string_scope.

(* ================================================================== *)
(** * Python values and exceptions *)
(* ================================================================== *)

(** What [response.json()] can return, and what the record fields built
    from it can hold.  A [VDict] lists its entries in insertion order with
    pairwise distinct keys; [VFloat] keeps the literal, no arithmetic is
    ever done on it. *)
#[warnings="-register-all"]
Inductive value : Type :=
| VNone
| VBool (b : bool)
| VInt (n : Z)
| VFloat (literal : string)
| VStr (s : string)
| VList (items : list value)
| VDict (entries : list (string * value)).

(** The exceptions the program can meet.  [RequestError] stands for
    whatever [requests.get], [raise_for_status] or [response.json] raise
    (connection error, timeout, HTTP status, undecodable body);
    [SMTPError] for whatever [smtplib] raises. *)
Inductive exn : Type :=
| RequestError (detail : string)
| SMTPError (detail : string)
| AttributeError
| TypeError
| IndexError
| KeyError (key : value)
| ValueError (msg : string).

Inductive outcome (A : Type) : Type :=
| Return (a : A)
| Raise (e : exn).
Arguments Return {A} a.
Arguments Raise {A} e.

Definition obind {A B : Type} (o : outcome A) (k : A -> outcome B) : outcome B :=
  match o with
  | Return a => k a
  | Raise e => Raise e
  end.

Notation "'let*' x ':=' o 'in' k" := (obind o (fun x => k))
  (at level 10, x name, o at level 100, k at level 200).

(** The body of a [for] loop that appends one element per iteration and
    lets the first exception escape. *)
Fixpoint map_outcome {A B : Type} (f : A -> outcome B) (l : list A) : outcome (list B) :=
  match l with
  | [] => Return []
  | x :: rest =>
      let* y := f x in
      let* ys := map_outcome f rest in
      Return (y :: ys)
  end.

(** The same loop when the append is guarded by an [if]. *)
Fixpoint filter_map_outcome {A B : Type} (f : A -> outcome (option B)) (l : list A)
  : outcome (list B) :=
  match l with
  | [] => Return []
  | x :: rest =>
      let* y := f x in
      let* ys := filter_map_outcome f rest in
      Return (match y with Some b => b :: ys | None => ys end)
  end.

(* ------------------------------------------------------------------ *)
(** ** Strings *)

Definition nl : string := String (ascii_of_nat 10) EmptyString.
Definition dq : string := String (ascii_of_nat 34) EmptyString.

(** The bytes [10xxxxxx] that continue a character begun before them. *)
Definition is_continuation (c : ascii) : bool :=
  let n := nat_of_ascii c in ((128 <=? n) && (n <? 192))%nat.

(** [len(s)]: the number of characters. *)
Fixpoint str_len (s : string) : nat :=
  match s with
  | EmptyString => 0
  | String c rest => if is_continuation c then str_len rest else S (str_len rest)
  end.

(** [s[:n]] for [0 <= n]: the first [n] characters, each with all its
    bytes. *)
Fixpoint take (n : nat) (s : string) : string :=
  match s with
  | EmptyString => EmptyString
  | String c rest =>
      if is_continuation c then String c (take n rest)
      else match n with
           | O => EmptyString
           | S n' => String c (take n' rest)
           end
  end.

(** The continuation bytes [s] starts with. *)
Fixpoint continuation (s : string) : string :=
  match s with
  | EmptyString => EmptyString
  | String c rest => if is_continuation c then String c (continuation rest) else EmptyString
  end.

(** The characters of [s], one string each. *)
Fixpoint chars (s : string) : list string :=
  match s with
  | EmptyString => []
  | String c rest =>
      if is_continuation c then chars rest
      else String c (continuation rest) :: chars rest
  end.

Fixpoint starts_with (p s : string) : bool :=
  match p, s with
  | EmptyString, _ => true
  | String a p', String b s' => Ascii.eqb a b && starts_with p' s'
  | String _ _, EmptyString => false
  end.

(** [needle in hay]. *)
Fixpoint contains (needle hay : string) : bool :=
  starts_with needle hay
  || match hay with
     | EmptyString => false
     | String _ rest => contains needle rest
     end.

(* ------------------------------------------------------------------ *)
(** ** The operations the program applies to decoded values *)

Fixpoint lookup (k : string) (entries : list (string * value)) : option value :=
  match entries with
  | [] => None
  | (k', v) :: rest => if String.eqb k k' then Some v else lookup k rest
  end.

(** [x.get(k, default)]: only a dict has [get]; a key that is present
    gives its value whatever that value is, [None] included. *)
Definition dict_get (x : value) (k : string) (default : value) : outcome value :=
  match x with
  | VDict entries =>
      match lookup k entries with
      | Some v => Return v
      | None => Return default
      end
  | _ => Raise AttributeError
  end.

(** [x[i]] for a literal index [i >= 0].  The keys of a decoded dict are
    strings, so an integer subscript never finds one. *)
Definition subscript (x : value) (i : nat) : outcome value :=
  match x with
  | VList items =>
      match nth_error items i with
      | Some v => Return v
      | None => Raise IndexError
      end
  | VStr s =>
      match nth_error (chars s) i with
      | Some c => Return (VStr c)
      | None => Raise IndexError
      end
  | VDict _ => Raise (KeyError (VInt (Z.of_nat i)))
  | _ => Raise TypeError
  end.

(** [len(x)]. *)
Definition py_len (x : value) : outcome nat :=
  match x with
  | VList items => Return (List.length items)
  | VStr s => Return (str_len s)
  | VDict entries => Return (List.length entries)
  | _ => Raise TypeError
  end.

(** Where the slice [[:n]] of a sequence of length [len] stops: a negative
    [n] counts from the end. *)
Definition slice_stop (len : nat) (n : Z) : nat :=
  if (n <? 0)%Z then Z.to_nat (Z.max 0 (Z.of_nat len + n)) else Z.to_nat n.

(** [x[:n]].  A dict rejects a slice key ([TypeError] up to CPython 3.11,
    [KeyError] after); both are exceptions and nothing here tells them
    apart. *)
Definition slice_to (x : value) (n : Z) : outcome value :=
  match x with
  | VList items => Return (VList (firstn (slice_stop (List.length items) n) items))
  | VStr s => Return (VStr (take (slice_stop (str_len s) n) s))
  | _ => Raise TypeError
  end.

(** The elements a [for] loop draws from [x]. *)
Definition py_iter (x : value) : outcome (list value) :=
  match x with
  | VList items => Return items
  | VStr s => Return (map VStr (chars s))
  | VDict entries => Return (map (fun kv => VStr (fst kv)) entries)
  | _ => Raise TypeError
  end.

(* ================================================================== *)
(** * [str.format] *)
(* ================================================================== *)

(** [template.format(a0, a1, ...)] with string arguments and no keyword
    arguments, following CPython's [MarkupIterator_next], [parse_field]
    and [get_field_object]: literal text runs up to a brace; a doubled
    brace is a literal brace; a single opening brace starts a replacement
    field, whose name ends at the first colon, bang or closing brace; the
    first component of the name selects an argument, and a component that
    is neither empty nor a number is looked up among the keyword
    arguments.  Fields are resolved left to right, each one before the
    text after it is read.  Every delimiter is an ASCII character, which
    no byte of a longer character equals, so the scan reads bytes. *)
Module Format.

(** How positional fields have been numbered so far. *)
Inductive numbering := Unset | Auto (next : nat) | Manual.

(** Splits at the first character satisfying [stop]; [None] when there
    is none. *)
Fixpoint split_at (stop : ascii -> bool) (s : string) : option (string * ascii * string) :=
  match s with
  | EmptyString => None
  | String c rest =>
      if stop c then Some (EmptyString, c, rest)
      else match split_at stop rest with
           | Some (before, d, after) => Some (String c before, d, after)
           | None => None
           end
  end.

Definition is_digit (c : ascii) : bool :=
  let n := nat_of_ascii c in ((48 <=? n) && (n <=? 57))%nat.

Fixpoint digits_value (s : string) (acc : nat) : option nat :=
  match s with
  | EmptyString => Some acc
  | String c rest =>
      if is_digit c then digits_value rest (10 * acc + (nat_of_ascii c - 48))
      else None
  end.

(** The first component of a field name: up to the first dot or
    opening bracket. *)
Definition first_component (name : string) : string * string :=
  match split_at (fun c => Ascii.eqb c "." || Ascii.eqb c "[")%char name with
  | Some (first, d, rest) => (first, String d rest)
  | None => (name, EmptyString)
  end.

Inductive field : Type :=
  Field (name : string) (conversion : option ascii) (spec : string).

(** Where the scanner stands: in literal text, or inside a replacement
    field, in its name ([parse_field] skips a bracketed index up to its
    closing bracket), right after the bang, after the conversion
    character, or in the format spec at some depth of nested braces. *)
Inductive mode : Type :=
| Lit
| Name (name : string) (in_bracket : bool)
| Bang (name : string)
| AfterConv (name : string) (conv : ascii)
| Spec (name : string) (conv : option ascii) (spec : string) (depth : nat).

Definition snoc (s : string) (c : ascii) : string := s ++ String c EmptyString.

(** The template ends here. *)
Definition at_end (m : mode) (out : string) : outcome string :=
  match m with
  | Lit => Return out
  | Name _ _ => Raise (ValueError "expected '}' before end of string")
  | Bang _ => Raise (ValueError "end of string while looking for conversion specifier")
  | AfterConv _ _ => Raise (ValueError "unmatched '{' in format spec")
  | Spec _ _ _ _ => Raise (ValueError "unmatched '{' in format spec")
  end.

Section Render.

(** What lies beyond this program's use of [format]: an attribute or
    index path after the first component, a conversion, a format
    spec.  [format_field obj path conversion spec] is the text such a
    field yields for the selected argument. *)
Variable format_field : string -> string -> option ascii -> string -> outcome string.

Variable args : list string.

(** [get_field_object] and the rendering of the selected argument;
    there are no keyword arguments to find a name in. *)
Definition render_field (f : field) (nb : numbering) : outcome (string * numbering) :=
  let '(Field name conversion spec) := f in
  let '(first, path) := first_component name in
  let* sel :=
    match first with
    | EmptyString =>
        match nb with
        | Manual =>
            Raise (ValueError
              "cannot switch from manual field specification to automatic field numbering")
        | Unset => Return (0, Auto 1)
        | Auto n => Return (n, Auto (S n))
        end
    | _ =>
        match digits_value first 0 with
        | Some n =>
            match nb with
            | Auto _ =>
                Raise (ValueError
                  "cannot switch from automatic field numbering to manual field specification")
            | _ => Return (n, Manual)
            end
        | None => Raise (KeyError (VStr first))
        end
    end in
  match nth_error args (fst sel) with
  | None => Raise IndexError
  | Some obj =>
      match path, conversion, spec with
      | EmptyString, None, EmptyString => Return (obj, snd sel)
      | _, _, _ =>
          let* text := format_field obj path conversion spec in
          Return (text, snd sel)
      end
  end.

(** [MarkupIterator_next] and [parse_field] as one left-to-right
    scan; a field is rendered when its closing brace is read, before
    anything after it is looked at. *)
Fixpoint scan (s : string) (m : mode) (nb : numbering) (out : string) : outcome string :=
  match s with
  | EmptyString => at_end m out
  | String c rest =>
      let emit (f : field) :=
        let* r := render_field f nb in
        scan rest Lit (snd r) (out ++ fst r) in
      match m with
      | Lit =>
          if Ascii.eqb c "{" then
            match rest with
            | EmptyString => Raise (ValueError "Single '{' encountered in format string")
            | String c' rest' =>
                if Ascii.eqb c' "{" then scan rest' Lit nb (snoc out c)
                else scan rest (Name EmptyString false) nb out
            end
          else if Ascii.eqb c "}" then
            match rest with
            | EmptyString => Raise (ValueError "Single '}' encountered in format string")
            | String c' rest' =>
                if Ascii.eqb c' "}" then scan rest' Lit nb (snoc out c)
                else Raise (ValueError "Single '}' encountered in format string")
            end
          else scan rest Lit nb (snoc out c)
      | Name name true =>
          scan rest (Name (snoc name c) (negb (Ascii.eqb c "]"))) nb out
      | Name name false =>
          if Ascii.eqb c "{" then Raise (ValueError "unexpected '{' in field name")
          else if Ascii.eqb c "}" then emit (Field name None EmptyString)
          else if Ascii.eqb c ":" then scan rest (Spec name None EmptyString 0) nb out
          else if Ascii.eqb c "!" then scan rest (Bang name) nb out
          else scan rest (Name (snoc name c) (Ascii.eqb c "[")) nb out
      | Bang name => scan rest (AfterConv name c) nb out
      | AfterConv name conv =>
          if Ascii.eqb c "}" then emit (Field name (Some conv) EmptyString)
          else if Ascii.eqb c ":" then scan rest (Spec name (Some conv) EmptyString 0) nb out
          else Raise (ValueError "expected ':' after conversion specifier")
      | Spec name conv spec depth =>
          if Ascii.eqb c "}" then
            match depth with
            | O => emit (Field name conv spec)
            | S d => scan rest (Spec name conv (snoc spec c) d) nb out
            end
          else
            scan rest
              (Spec name conv (snoc spec c) (if Ascii.eqb c "{" then S depth else depth))
              nb out
      end
  end.

Definition format (template : string) : outcome string :=
  scan template Lit Unset EmptyString.

End Render.
End Format.

(* ================================================================== *)
(** * The world the program runs in *)
(* ================================================================== *)

(** One call [requests.get(url, params=..., timeout=...)]. *)
Record request : Type := {
  url : string;
  params : list (string * value);
  timeout : Z
}.

(** The MIME message handed to [smtplib]. *)
Record message : Type := {
  msg_subject : string;
  msg_from : string;
  msg_to : string;
  msg_html : string
}.

(** What the block [with smtplib.SMTP_SSL(...) as server: login;
    send_message] comes to.  Connecting, logging in or [send_message]
    may raise, and then the server has not taken the message.  Once
    [send_message] has returned the server has taken it; leaving the
    block sends [QUIT], and a reply other than 221 raises after the
    message was taken. *)
Inductive delivery : Type :=
| Accepted
| AcceptedThenRaised (e : exn)
| Refused (e : exn).

(** Everything the program does not decide: the process environment, the
    network, the mail server, the clock and the pieces of the Python
    runtime left abstract.
    - [transport r] is what [requests.get] followed by
      [raise_for_status] and [response.json] comes to for the request
      [r]: the decoded payload, or the exception one of the three raised.
    - [smtp_send user password m] is what the [with smtplib.SMTP_SSL]
      block comes to for the message [m]: see [delivery].
    - [py_repr v] is [str(v)] for a number, a list or a dict;
      [str_of_exn e] is [str(e)].
    - [date_long] and [date_iso] are [datetime.now()] under the formats
      [%A, %B %d, %Y] and [%Y-%m-%d]. *)
Record platform : Type := {
  environ : string -> option string;
  transport : request -> outcome value;
  smtp_send : string -> string -> message -> delivery;
  py_repr : value -> string;
  str_of_exn : exn -> string;
  format_field : string -> string -> option ascii -> string -> outcome string;
  date_long : string;
  date_iso : string
}.

(** What a run leaves behind: the lines printed, the requests issued and
    the messages accepted by the mail server, oldest first. *)
Record world : Type := {
  stdout : list string;
  requests : list request;
  outbox : list message
}.

Definition empty_world : world := {| stdout := []; requests := []; outbox := [] |}.

(** A statement sequence: runs in a world, returns or raises, and leaves
    a world. *)
Definition M (A : Type) : Type := world -> outcome A * world.

Definition ret {A : Type} (a : A) : M A := fun w => (Return a, w).

Definition raise {A : Type} (e : exn) : M A := fun w => (Raise e, w).

Definition lift {A : Type} (o : outcome A) : M A := fun w => (o, w).

Definition bind {A B : Type} (m : M A) (k : A -> M B) : M B :=
  fun w =>
    match m w with
    | (Return a, w') => k a w'
    | (Raise e, w') => (Raise e, w')
    end.

(** [try: body  except Exception as e: handler]. *)
Definition try_except {A : Type} (body : M A) (handler : exn -> M A) : M A :=
  fun w =>
    match body w with
    | (Return a, w') => (Return a, w')
    | (Raise e, w') => handler e w'
    end.

Notation "x <- m ;; k" := (bind m (fun x => k))
  (at level 61, m at next level, right associativity).
Notation "m ;;; k" := (bind m (fun _ => k))
  (at level 61, right associativity).

Definition print (line : string) : M unit :=
  fun w => (Return tt,
            {| stdout := (stdout w ++ [line])%list; requests := requests w; outbox := outbox w |}).

(** [str(v)], as an f-string field renders [v]. *)
Definition py_str (P : platform) (v : value) : string :=
  match v with
  | VStr s => s
  | VNone => "None"
  | VBool true => "True"
  | VBool false => "False"
  | _ => py_repr P v
  end.

(** [requests.get(...)], [raise_for_status()] and [json()] in one step. *)
Definition http_get (P : platform) (r : request) : M value :=
  fun w => (transport P r,
            {| stdout := stdout w; requests := (requests w ++ [r])%list; outbox := outbox w |}).

(** The [with] block of [send_email]: the outbox gains the message when
    the server took it, whether or not leaving the block raised. *)
Definition smtp_deliver (P : platform) (user password : string) (m : message) : M unit :=
  fun w =>
    let sent :=
      {| stdout := stdout w; requests := requests w; outbox := (outbox w ++ [m])%list |} in
    match smtp_send P user password m with
    | Accepted => (Return tt, sent)
    | AcceptedThenRaised e => (Raise e, sent)
    | Refused e => (Raise e, w)
    end.

(* ================================================================== *)
(** * [NewsDigestGenerator] *)
(* ================================================================== *)

(** The attributes set by [__init__].  A generator only exists once the
    four required settings were found non-empty, so they are strings. *)
Record generator : Type := {
  news_api_key : string;
  sports_api_key : string;
  sender_email : string;
  sender_password : string;
  recipient_email : string
}.

(** The record [fetch_news] builds for one article. *)
Record article : Type := {
  title : value;
  description : value;
  article_url : value;
  source : value;
  image : value;
  publishedAt : value
}.

(** The record the score fetchers build for one game. *)
Record game : Type := {
  home : value;
  away : value;
  home_score : value;
  away_score : value;
  status : value
}.

(** The dict returned by [fetch_nba_scores] and [fetch_nfl_scores]; the
    latter has no ['date'] entry. *)
Record scoreboard : Type := {
  games : list game;
  date : option string
}.

(** Truthiness of [os.environ.get(name)]. *)
Definition truthy (o : option string) : bool :=
  match o with
  | Some (String _ _) => true
  | _ => false
  end.

Definition or_empty (o : option string) : string :=
  match o with
  | Some s => s
  | None => EmptyString
  end.

Section Generator.

Variable P : platform.

(** [__init__] *)
Definition init : outcome generator :=
  let news_api_key := environ P "NEWS_API_KEY" in
  let sports_api_key := or_empty (environ P "SPORTS_API_KEY") in
  let sender_email := environ P "SENDER_EMAIL" in
  let sender_password := environ P "SENDER_PASSWORD" in
  let recipient_email := environ P "RECIPIENT_EMAIL" in
  if forallb truthy [news_api_key; sender_email; sender_password; recipient_email]
  then Return {| news_api_key := or_empty news_api_key;
                 sports_api_key := sports_api_key;
                 sender_email := or_empty sender_email;
                 sender_password := or_empty sender_password;
                 recipient_email := or_empty recipient_email |}
  else Raise (ValueError "Missing required environment variables").

(* ---------------------------------------------------------------- *)
(** ** [fetch_news] *)

Definition news_request (self : generator) (query : string) (num_articles : Z) : request :=
  {| url := "https://newsapi.org/v2/everything";
     params := [("q", VStr query);
                ("sortBy", VStr "popularity");
                ("language", VStr "en");
                ("pageSize", VInt num_articles);
                ("apiKey", VStr (news_api_key self))];
     timeout := 10 |}.

(** One iteration of the loop of [fetch_news]. *)
Definition article_of (a : value) : outcome article :=
  let* title := dict_get a "title" (VStr "") in
  let* description := dict_get a "description" (VStr "") in
  let* url := dict_get a "url" (VStr "") in
  let* src := dict_get a "source" (VDict []) in
  let* name := dict_get src "name" (VStr "") in
  let* image := dict_get a "urlToImage" (VStr "") in
  let* publishedAt := dict_get a "publishedAt" (VStr "") in
  Return {| title := title; description := description; article_url := url;
            source := name; image := image; publishedAt := publishedAt |}.

(** [data.get('articles', [])[:num_articles]], as the loop walks it. *)
Definition listed_articles (data : value) (num_articles : Z) : outcome (list value) :=
  let* listed := dict_get data "articles" (VList []) in
  let* kept := slice_to listed num_articles in
  py_iter kept.

(** What [fetch_news] does with a decoded payload. *)
Definition articles_of (data : value) (num_articles : Z) : outcome (list article) :=
  let* items := listed_articles data num_articles in
  map_outcome article_of items.

(** The [try] block of [fetch_news]. *)
Definition fetch_news_body (self : generator) (query : string) (num_articles : Z)
  : M (list article) :=
  data <- http_get P (news_request self query num_articles) ;;
  lift (articles_of data num_articles).

Definition fetch_news_diagnostic (query : string) (e : exn) : string :=
  "Error fetching news for '" ++ query ++ "': " ++ str_of_exn P e.

Definition fetch_news (self : generator) (query : string) (num_articles : Z)
  : M (list article) :=
  try_except (fetch_news_body self query num_articles)
    (fun e => print (fetch_news_diagnostic query e) ;;; ret []).

(* ---------------------------------------------------------------- *)
(** ** The score fetchers *)

Definition scoreboard_request (path : string) : request :=
  {| url := "https://site.api.espn.com/apis/site/v2/sports/" ++ path ++ "/scoreboard";
     params := [];
     timeout := 10 |}.

(** [event.get('competitions', [{}])[0]] *)
Definition first_competition (event : value) : outcome value :=
  let* competitions := dict_get event "competitions" (VList [VDict []]) in
  subscript competitions 0.

(** [c.get('team', {}).get('displayName', '')] *)
Definition team_name (c : value) : outcome value :=
  let* team := dict_get c "team" (VDict []) in
  dict_get team "displayName" (VStr "").

(** [competition.get('status', {}).get('type', {}).get('description', 'TBD')] *)
Definition status_of (competition : value) : outcome value :=
  let* st := dict_get competition "status" (VDict []) in
  let* ty := dict_get st "type" (VDict []) in
  dict_get ty "description" (VStr "TBD").

(** One iteration of the loop the three score fetchers share: the
    record for [event], or nothing when fewer than two competitors are
    listed. *)
Definition game_of (event : value) : outcome (option game) :=
  let* competition := first_competition event in
  let* competitors := dict_get competition "competitors" (VList []) in
  let* n := py_len competitors in
  if (2 <=? n)%nat then
    let* c0 := subscript competitors 0 in
    let* home := team_name c0 in
    let* c1 := subscript competitors 1 in
    let* away := team_name c1 in
    let* c0' := subscript competitors 0 in
    let* home_score := dict_get c0' "score" (VStr "-") in
    let* c1' := subscript competitors 1 in
    let* away_score := dict_get c1' "score" (VStr "-") in
    let* competition' := first_competition event in
    let* status := status_of competition' in
    Return (Some {| home := home; away := away; home_score := home_score;
                    away_score := away_score; status := status |})
  else Return None.

(** [data.get('events', [])], as the loop walks it. *)
Definition all_events (data : value) : outcome (list value) :=
  let* listed := dict_get data "events" (VList []) in
  py_iter listed.

(** [data.get('events', [])[:5]], as the loop walks it. *)
Definition top_events (data : value) : outcome (list value) :=
  let* listed := dict_get data "events" (VList []) in
  let* kept := slice_to listed 5 in
  py_iter kept.

(** What [fetch_nba_scores] and [fetch_nfl_scores] do with a decoded
    payload: every event is visited. *)
Definition games_of (data : value) : outcome (list game) :=
  let* events := all_events data in
  filter_map_outcome game_of events.

(** What [fetch_soccer_scores] does with a decoded payload: the first
    five events are visited. *)
Definition top_games_of (data : value) : outcome (list game) :=
  let* events := top_events data in
  filter_map_outcome game_of events.

Definition fetch_nba_scores_body : M scoreboard :=
  data <- http_get P (scoreboard_request "basketball/nba") ;;
  games <- lift (games_of data) ;;
  ret {| games := games; date := Some (date_iso P) |}.

Definition fetch_nba_scores : M scoreboard :=
  try_except fetch_nba_scores_body
    (fun e => print ("Error fetching NBA scores: " ++ str_of_exn P e) ;;;
              ret {| games := []; date := Some (date_iso P) |}).

Definition fetch_nfl_scores_body : M scoreboard :=
  data <- http_get P (scoreboard_request "football/nfl") ;;
  games <- lift (games_of data) ;;
  ret {| games := games; date := None |}.

Definition fetch_nfl_scores : M scoreboard :=
  try_except fetch_nfl_scores_body
    (fun e => print ("Error fetching NFL scores: " ++ str_of_exn P e) ;;;
              ret {| games := []; date := None |}).

Definition league_map : list (string * string) :=
  [("premier-league", "soccer/eng.1");
   ("champions-league", "soccer/uefa.champions");
   ("europa-league", "soccer/uefa.europa");
   ("championship", "soccer/eng.2");
   ("fa-cup", "soccer/eng.fa");
   ("carabao-cup", "soccer/eng.cup")].

(** [league_map.get(league, '')] *)
Fixpoint league_id_of (league : string) (m : list (string * string)) : string :=
  match m with
  | [] => EmptyString
  | (k, v) :: rest => if String.eqb league k then v else league_id_of league rest
  end.

Definition fetch_soccer_scores_body (league : string) : M (list game) :=
  match league_id_of league league_map with
  | EmptyString => ret []
  | league_id =>
      data <- http_get P (scoreboard_request league_id) ;;
      lift (top_games_of data)
  end.

Definition fetch_soccer_scores (league : string) : M (list game) :=
  try_except (fetch_soccer_scores_body league)
    (fun e => print ("Error fetching " ++ league ++ " scores: " ++ str_of_exn P e) ;;;
              ret []).

End Generator.

(* ================================================================== *)
(** * [generate_html_digest] *)
(* ================================================================== *)

Section Digest.

Variable P : platform.
Variable self : generator.

(** The template [format] is called on: a style sheet, then the
    heading with one replacement field for the date. *)
Definition header_template : string :=
  nl
  ++ "        <html>" ++ nl
  ++ "            <head>" ++ nl
  ++ "                <style>" ++ nl
  ++ "                    body { font-family: Arial, sans-serif; background-color: #f5f5f5; }" ++ nl
  ++ "                    .container { max-width: 900px; margin: 0 auto; background: white; padding: 20px; }" ++ nl
  ++ "                    h1 { color: #333; border-bottom: 3px solid #007bff; padding-bottom: 10px; }" ++ nl
  ++ "                    h2 { color: #007bff; margin-top: 30px; border-left: 4px solid #007bff; padding-left: 10px; }" ++ nl
  ++ "                    .article { margin: 15px 0; padding: 15px; border-left: 4px solid #ddd; }" ++ nl
  ++ "                    .article-title { font-weight: bold; color: #333; }" ++ nl
  ++ "                    .article-summary { color: #666; font-size: 14px; margin: 5px 0; }" ++ nl
  ++ "                    .article-source { color: #999; font-size: 12px; }" ++ nl
  ++ "                    .article-link { color: #007bff; text-decoration: none; font-size: 12px; }" ++ nl
  ++ "                    .score-item { padding: 10px; margin: 5px 0; background: #f9f9f9; border-radius: 4px; }" ++ nl
  ++ "                    .score-teams { font-weight: bold; }" ++ nl
  ++ "                    .score-final { color: #007bff; font-weight: bold; }" ++ nl
  ++ "                    .footer { text-align: center; color: #999; font-size: 12px; margin-top: 40px; padding-top: 20px; border-top: 1px solid #ddd; }" ++ nl
  ++ "                </style>" ++ nl
  ++ "            </head>" ++ nl
  ++ "            <body>" ++ nl
  ++ "                <div class=" ++ dq ++ "container" ++ dq ++ ">" ++ nl
  ++ "                    <h1>üì∞ Daily News Digest - {}</h1>" ++ nl
  ++ "        ".

(** The first statement: [html = template.format(date)]. *)
Definition digest_header : outcome string :=
  Format.format (format_field P) [date_long P] header_template.

Definition news_sections : list (string * (string * Z)) :=
  [("Top 5 US News", ("US news", 5%Z));
   ("Top 5 Europe News", ("Europe news", 5%Z));
   ("Top 5 Africa News", ("Africa news", 5%Z));
   ("Top 3 India News", ("India news", 3%Z));
   ("Top 3 China News", ("China news", 3%Z));
   ("Top 5 NBA News", ("NBA basketball", 5%Z));
   ("Top 5 NFL News", ("NFL football", 5%Z));
   ("Top 5 Premier League News", ("English Premier League", 5%Z));
   ("Top 2 West Ham News", ("West Ham United", 2%Z))].

Definition soccer_leagues : list (string * string) :=
  [("Premier League", "premier-league");
   ("Champions League", "champions-league");
   ("Europa League", "europa-league");
   ("EFL Championship", "championship");
   ("FA Cup", "fa-cup");
   ("Carabao Cup", "carabao-cup")].

(** The text between the tags of the summary line:
    [{article['description'][:200]}...] *)
Definition summary_text (description : value) : outcome string :=
  let* shown := slice_to description 200 in
  Return (py_str P shown ++ "...").

(** The f-string appended for one article, around the summary text. *)
Definition article_template (a : article) (summary : string) : string :=
  nl
  ++ "                    <div class=" ++ dq ++ "article" ++ dq ++ ">" ++ nl
  ++ "                        <div class=" ++ dq ++ "article-title" ++ dq ++ ">"
       ++ py_str P (title a) ++ "</div>" ++ nl
  ++ "                        <div class=" ++ dq ++ "article-summary" ++ dq ++ ">"
       ++ summary ++ "</div>" ++ nl
  ++ "                        <div class=" ++ dq ++ "article-source" ++ dq ++ ">"
       ++ py_str P (source a) ++ "</div>" ++ nl
  ++ "                        <a href=" ++ dq ++ py_str P (article_url a) ++ dq
       ++ " class=" ++ dq ++ "article-link" ++ dq ++ ">Read full article ‚Üí</a>" ++ nl
  ++ "                    </div>" ++ nl
  ++ "                    ".

(** The f-string appended for one article: slicing the description may
    raise. *)
Definition article_block (a : article) : outcome string :=
  let* summary := summary_text (description a) in
  Return (article_template a summary).

(** [for article in articles: html += ...] *)
Fixpoint render_articles (articles : list article) (html : string) : outcome string :=
  match articles with
  | [] => Return html
  | a :: rest =>
      let* block := article_block a in
      render_articles rest (html ++ block)
  end.

Definition news_heading (section_title : string) : string :=
  "<h2>" ++ section_title ++ "</h2>" ++ nl.

Definition news_placeholder : string :=
  "<p style='color: #999;'>No articles found at this time.</p>" ++ nl.

(** What the news loop appends once the articles are fetched. *)
Definition render_news_section (section_title : string) (articles : list article)
           (html : string) : outcome string :=
  let html := html ++ news_heading section_title in
  match articles with
  | [] => Return (html ++ news_placeholder)
  | _ :: _ => render_articles articles html
  end.

(** One iteration of the news loop. *)
Definition news_section (entry : string * (string * Z)) (html : string) : M string :=
  let '(section_title, (query, count)) := entry in
  articles <- fetch_news P self query count ;;
  lift (render_news_section section_title articles html).

Fixpoint news_loop (entries : list (string * (string * Z))) (html : string) : M string :=
  match entries with
  | [] => ret html
  | entry :: rest =>
      html <- news_section entry html ;;
      news_loop rest html
  end.

(** The f-string appended for one NBA game. *)
Definition nba_block (g : game) : string :=
  nl
  ++ "                <div class=" ++ dq ++ "score-item" ++ dq ++ ">" ++ nl
  ++ "                    <div class=" ++ dq ++ "score-teams" ++ dq ++ ">"
       ++ py_str P (away g) ++ " @ " ++ py_str P (home g) ++ "</div>" ++ nl
  ++ "                    <div class=" ++ dq ++ "score-final" ++ dq ++ ">"
       ++ py_str P (away_score g) ++ " - " ++ py_str P (home_score g) ++ "</div>" ++ nl
  ++ "                    <div class=" ++ dq ++ "score-source" ++ dq ++ ">"
       ++ py_str P (status g) ++ "</div>" ++ nl
  ++ "                </div>" ++ nl
  ++ "                ".

(** The f-string appended for one soccer game. *)
Definition soccer_block (g : game) : string :=
  nl
  ++ "                    <div class=" ++ dq ++ "score-item" ++ dq ++ ">" ++ nl
  ++ "                        <div class=" ++ dq ++ "score-teams" ++ dq ++ ">"
       ++ py_str P (away g) ++ " vs " ++ py_str P (home g) ++ "</div>" ++ nl
  ++ "                        <div class=" ++ dq ++ "score-final" ++ dq ++ ">"
       ++ py_str P (away_score g) ++ " - " ++ py_str P (home_score g) ++ "</div>" ++ nl
  ++ "                    </div>" ++ nl
  ++ "                    ".

(** [for game in games: html += block] *)
Fixpoint render_games (block : game -> string) (gs : list game) (html : string) : string :=
  match gs with
  | [] => html
  | g :: rest => render_games block rest (html ++ block g)
  end.

Definition nba_heading : string := "<h2>üèÄ NBA Scores (Previous Day)</h2>" ++ nl.

Definition nba_placeholder : string :=
  "<p style='color: #999;'>No games to display.</p>" ++ nl.

Definition render_nba_section (nba_data : scoreboard) (html : string) : string :=
  match games nba_data with
  | [] => html ++ nba_placeholder
  | _ :: _ => render_games nba_block (games nba_data) html
  end.

(** The NBA part: the heading is appended before the fetch. *)
Definition nba_section (html : string) : M string :=
  let html := html ++ nba_heading in
  nba_data <- fetch_nba_scores P ;;
  ret (render_nba_section nba_data html).

Definition soccer_heading : string := "<h2>‚öΩ Soccer Scores</h2>" ++ nl.

Definition league_heading (league_name : string) : string :=
  "<h3>" ++ league_name ++ "</h3>" ++ nl.

Definition soccer_placeholder : string :=
  "<p style='color: #999;'>No matches to display.</p>" ++ nl.

Definition render_league_section (league_name : string) (gs : list game) (html : string)
  : string :=
  let html := html ++ league_heading league_name in
  match gs with
  | [] => html ++ soccer_placeholder
  | _ :: _ => render_games soccer_block gs html
  end.

(** One iteration of the soccer loop. *)
Definition league_section (entry : string * string) (html : string) : M string :=
  let '(league_name, league_id) := entry in
  gs <- fetch_soccer_scores P league_id ;;
  ret (render_league_section league_name gs html).

Fixpoint soccer_loop (entries : list (string * string)) (html : string) : M string :=
  match entries with
  | [] => ret html
  | entry :: rest =>
      html <- league_section entry html ;;
      soccer_loop rest html
  end.

Definition footer : string :=
  nl
  ++ "                    <div class=" ++ dq ++ "footer" ++ dq ++ ">" ++ nl
  ++ "                        <p>This is an automated daily digest. Please do not reply to this email.</p>" ++ nl
  ++ "                    </div>" ++ nl
  ++ "                </div>" ++ nl
  ++ "            </body>" ++ nl
  ++ "        </html>" ++ nl
  ++ "        ".

(** Everything after the first statement: the three groups of sections
    and the footer, appended to the text built so far. *)
Definition digest_sections (html : string) : M string :=
  html <- news_loop news_sections html ;;
  html <- nba_section html ;;
  html <- soccer_loop soccer_leagues (html ++ soccer_heading) ;;
  ret (html ++ footer).

Definition generate_html_digest : M string :=
  html <- lift digest_header ;;
  digest_sections html.

(* ---------------------------------------------------------------- *)
(** ** [send_email] *)

Definition digest_message (html_content : string) : message :=
  {| msg_subject := "üì∞ Daily News Digest - " ++ date_long P;
     msg_from := sender_email self;
     msg_to := recipient_email self;
     msg_html := html_content |}.

Definition send_email (html_content : string) : M unit :=
  try_except
    (smtp_deliver P (sender_email self) (sender_password self)
       (digest_message html_content) ;;;
     print ("Email sent successfully to " ++ recipient_email self))
    (fun e => print ("Error sending email: " ++ str_of_exn P e) ;;; raise e).

End Digest.

(* ================================================================== *)
(** * [main] *)
(* ================================================================== *)

(** The exit status of the process: [exit(1)] in the handler, 0 when
    [main] returns. *)
Definition main (P : platform) : world -> nat * world :=
  fun w =>
    match
      (generator <- lift (init P) ;;
       print "Generating daily news digest..." ;;;
       html_digest <- generate_html_digest P generator ;;
       print "Sending email..." ;;;
       send_email P generator html_digest ;;;
       print "Daily digest completed successfully!") w
    with
    | (Return _, w') => (0, w')
    | (Raise e, w') =>
        match print ("Fatal error: " ++ str_of_exn P e) w' with
        | (_, w'') => (1, w'')
        end
    end.

(* ================================================================== *)
(** * Vocabulary of the statements *)
(* ================================================================== *)

(** [m] returns in every world. *)
Definition never_raises {A : Type} (m : M A) : Prop :=
  forall w, exists a w', m w = (Return a, w').

(** The world after one request and the printing of [lines]. *)
Definition after_request (w : world) (r : request) (lines : list string) : world :=
  {| stdout := (stdout w ++ lines)%list;
     requests := (requests w ++ [r])%list;
     outbox := outbox w |}.

(** What an adapter that issues the request [r] and hands the payload to
    [process] comes to: it issues the request once and returns; when the
    transport or the processing raises [e] it returns [empty] and prints
    the one line [diagnostic e]; otherwise it returns what the processing
    gave and prints nothing. *)
Definition absorbs {A : Type} (P : platform) (adapter : M A) (r : request)
           (process : value -> outcome A) (empty : A) (diagnostic : exn -> string) : Prop :=
  forall w,
    adapter w =
    match obind (transport P r) process with
    | Return a => (Return a, after_request w r [])
    | Raise e => (Return empty, after_request w r [diagnostic e])
    end.

(** The platform [P] with another network. *)
Definition with_transport (P : platform) (t : request -> outcome value) : platform :=
  {| environ := environ P;
     transport := t;
     smtp_send := smtp_send P;
     py_repr := py_repr P;
     str_of_exn := str_of_exn P;
     format_field := format_field P;
     date_long := date_long P;
     date_iso := date_iso P |}.

Definition option_list {A : Type} (o : option A) : list A :=
  match o with
  | Some a => [a]
  | None => []
  end.

(** [gs] holds, in order, the records of those of [events] that gave one. *)
Definition drawn_from (events : list value) (gs : list game) : Prop :=
  exists picks,
    Forall2 (fun event pick => game_of event = Return pick) events picks
    /\ gs = flat_map option_list picks.

(** The digest as the specification words it: a document assembled by
    fetching every section, then rendered without any further fetch.
    The two phases reuse the adapters and the block templates of the
    program; only the order of the steps is the specification's. *)
Module TwoPhase.

Record digest : Type := {
  news : list (string * list article);
  nba : scoreboard;
  soccer : list (string * list game)
}.

Section Phases.

Variable P : platform.
Variable self : generator.

Fixpoint aggregate_news (entries : list (string * (string * Z)))
  : M (list (string * list article)) :=
  match entries with
  | [] => ret []
  | (section_title, (query, count)) :: rest =>
      articles <- fetch_news P self query count ;;
      sections <- aggregate_news rest ;;
      ret ((section_title, articles) :: sections)
  end.

Fixpoint aggregate_soccer (entries : list (string * string))
  : M (list (string * list game)) :=
  match entries with
  | [] => ret []
  | (league_name, league_id) :: rest =>
      gs <- fetch_soccer_scores P league_id ;;
      sections <- aggregate_soccer rest ;;
      ret ((league_name, gs) :: sections)
  end.

(** Phase one: every fetch, in configured order. *)
Definition aggregate : M digest :=
  news <- aggregate_news news_sections ;;
  nba <- fetch_nba_scores P ;;
  soccer <- aggregate_soccer soccer_leagues ;;
  ret {| news := news; nba := nba; soccer := soccer |}.

Fixpoint render_news (sections : list (string * list article)) (html : string)
  : outcome string :=
  match sections with
  | [] => Return html
  | (section_title, articles) :: rest =>
      let* html := render_news_section P section_title articles html in
      render_news rest html
  end.

Fixpoint render_soccer (sections : list (string * list game)) (html : string) : string :=
  match sections with
  | [] => html
  | (league_name, gs) :: rest =>
      render_soccer rest (render_league_section P league_name gs html)
  end.

(** Phase two: a function of the document and of the text so far. *)
Definition render (d : digest) (html : string) : outcome string :=
  let* html := render_news (news d) html in
  let html := render_nba_section P (nba d) (html ++ nba_heading) in
  let html := render_soccer (soccer d) (html ++ soccer_heading) in
  Return (html ++ footer).

Definition generate (html : string) : M string :=
  d <- aggregate ;;
  lift (render d html).

End Phases.
End TwoPhase.

(** Concrete settings, providers and payloads for the examples. *)
Module Demo.

Definition settings (name : string) : option string :=
  if String.eqb name "NEWS_API_KEY" then Some "key"
  else if String.eqb name "SENDER_EMAIL" then Some "digest@example.org"
  else if String.eqb name "SENDER_PASSWORD" then Some "secret"
  else if String.eqb name "RECIPIENT_EMAIL" then Some "reader@example.org"
  else None.

(** A platform with every required setting present and a mail server
    that accepts everything. *)
Definition platform_with (t : request -> outcome value) : platform :=
  {| environ := settings;
     transport := t;
     smtp_send := fun _ _ _ => Accepted;
     py_repr := fun _ => "?";
     str_of_exn := fun _ => "error";
     format_field := fun _ _ _ _ => Raise TypeError;
     date_long := "Wednesday, November 04, 2026";
     date_iso := "2026-11-04" |}.

Definition self : generator :=
  {| news_api_key := "key";
     sports_api_key := "";
     sender_email := "digest@example.org";
     sender_password := "secret";
     recipient_email := "reader@example.org" |}.

Definition asks_news (query : string) (r : request) : bool :=
  match lookup "q" (params r) with
  | Some (VStr q) => String.eqb q query
  | _ => false
  end.

Definition asks_scoreboard (path : string) (r : request) : bool :=
  String.eqb (url r) (url (scoreboard_request path)).

Definition empty_payload : value := VDict [].

(** Every provider answers, with nothing to report. *)
Definition quiet : request -> outcome value := fun _ => Return empty_payload.

(** The request for US news times out; every other provider answers. *)
Definition us_news_times_out : request -> outcome value :=
  fun r => if asks_news "US news" r then Raise (RequestError "timed out")
           else Return empty_payload.

Definition storm : value :=
  VDict [("title", VStr "Storm nears coast"); ("description", VNone)].

(** The first article of the US news has a null description. *)
Definition us_news_null_description : request -> outcome value :=
  fun r => if asks_news "US news" r then Return (VDict [("articles", VList [storm])])
           else Return empty_payload.

(** The request for US news times out and the Europe news carry an
    article with a null description. *)
Definition timeout_then_null : request -> outcome value :=
  fun r => if asks_news "US news" r then Raise (RequestError "timed out")
           else if asks_news "Europe news" r
                then Return (VDict [("articles", VList [storm])])
                else Return empty_payload.

Definition no_source : value :=
  VDict [("title", VStr "Storm nears coast"); ("source", VNone)].

Definition competitor (name score : string) : value :=
  VDict [("team", VDict [("displayName", VStr name)]); ("score", VStr score)].

Definition event (home_name home_pts away_name away_pts state : string) : value :=
  VDict [("competitions",
          VList [VDict [("competitors",
                         VList [competitor home_name home_pts;
                                competitor away_name away_pts]);
                        ("status",
                         VDict [("type", VDict [("description", VStr state)])])]])].

Definition six_events : value :=
  VDict [("events",
          VList [event "Celtics" "101" "Knicks" "99" "Final";
                 event "Lakers" "110" "Suns" "104" "Final";
                 event "Bulls" "95" "Heat" "97" "Final";
                 event "Nets" "88" "Hawks" "90" "Final";
                 event "Spurs" "120" "Jazz" "115" "Final";
                 event "Kings" "102" "Magic" "100" "Final"])].

Definition six_nba_games : request -> outcome value :=
  fun r => if asks_scoreboard "basketball/nba" r then Return six_events
           else Return empty_payload.

Definition no_events : value := VDict [("events", VList [])].

(** Every scoreboard answers with an empty list of events. *)
Definition empty_scoreboards : request -> outcome value := fun _ => Return no_events.

Definition headline (n : string) : value :=
  VDict [("title", VStr ("Headline " ++ n)); ("description", VStr "Text");
         ("url", VStr "https://example.org"); ("source", VDict [("name", VStr "Wire")])].

Definition ten_articles : value :=
  VDict [("articles",
          VList (map headline ["1"; "2"; "3"; "4"; "5"; "6"; "7"; "8"; "9"; "10"]))].

Definition ten_india_articles : request -> outcome value :=
  fun r => if asks_news "India news" r then Return ten_articles
           else Return empty_payload.

Definition postponed : game :=
  {| home := VStr "Arsenal"; away := VStr "Everton";
     home_score := VStr "-"; away_score := VStr "-";
     status := VStr "Postponed" |}.

End Demo.

(* ================================================================== *)
(** * Vocabulary of the further statements *)
(* ================================================================== *)

(** The settings [__init__] tests with [all]. *)
Definition required_settings : list string :=
  ["NEWS_API_KEY"; "SENDER_EMAIL"; "SENDER_PASSWORD"; "RECIPIENT_EMAIL"].

(** The value stored under [k], or [default]: what [get] returns on a
    dict. *)
Definition field_or (entries : list (string * value)) (k : string) (default : value)
  : value :=
  match lookup k entries with
  | Some v => v
  | None => default
  end.

(** The values a slice [[:n]] accepts. *)
Definition sliceable (v : value) : bool :=
  match v with
  | VStr _ | VList _ => true
  | _ => false
  end.

(** The lines the adapters print. *)
Definition is_diagnostic (line : string) : bool := starts_with "Error fetching " line.

(** The request of one entry of [news_sections]. *)
Definition news_entry_request (self : generator) (entry : string * (string * Z)) : request :=
  news_request self (fst (snd entry)) (snd (snd entry)).

(** The request of one entry of [soccer_leagues], when the league is
    known to [league_map]. *)
Definition league_entry_requests (entry : string * string) : list request :=
  match league_id_of (snd entry) league_map with
  | EmptyString => []
  | league_id => [scoreboard_request league_id]
  end.

(** The requests of one pass over the configured sections, in order. *)
Definition planned_requests (self : generator) : list request :=
  (map (news_entry_request self) news_sections
   ++ [scoreboard_request "basketball/nba"]
   ++ flat_map league_entry_requests soccer_leagues)%list.

(** The world [w'] is [w] after the requests [rs] and nothing else: the
    requests were issued in that order, each printed at most one line, a
    diagnostic, and no message was sent. *)
Definition fetched (w w' : world) (rs : list request) : Prop :=
  requests w' = (requests w ++ rs)%list
  /\ outbox w' = outbox w
  /\ exists lines,
       stdout w' = (stdout w ++ lines)%list
       /\ Forall (fun line => is_diagnostic line = true) lines
       /\ List.length lines <= List.length rs.

(** A step of the renderer that only appends: started on [html] it
    yields [html] followed by what it yields started on the empty text,
    with the same effects and the same exception. *)
Definition appends (step : string -> M string) : Prop :=
  forall html w,
    step html w =
    match step EmptyString w with
    | (Return body, w') => (Return (html ++ body), w')
    | (Raise e, w') => (Raise e, w')
    end.

(** Further payloads and providers for the examples. *)
Module Cases.

(** Three articles, the second with a null source. *)
Definition mixed_articles : value :=
  VDict [("articles", VList [Demo.headline "1"; Demo.no_source; Demo.headline "3"])].

Definition mixed_us_news : request -> outcome value :=
  fun r => if Demo.asks_news "US news" r then Return mixed_articles
           else Return Demo.empty_payload.

(** An event whose list of competitions is empty. *)
Definition no_competition : value := VDict [("competitions", VList [])].

Definition broken_scoreboard : value :=
  VDict [("events", VList [Demo.event "Celtics" "101" "Knicks" "99" "Final";
                           no_competition])].

Definition broken_nba : request -> outcome value :=
  fun r => if Demo.asks_scoreboard "basketball/nba" r then Return broken_scoreboard
           else Return Demo.empty_payload.

(** The list of articles is null. *)
Definition null_articles : value := VDict [("articles", VNone)].

(** An event whose competitors are an object keyed by side, not a list. *)
Definition keyed_competitors : value :=
  VDict [("competitions",
          VList [VDict [("competitors",
                         VDict [("home", Demo.competitor "Celtics" "101");
                                ("away", Demo.competitor "Knicks" "99")])]])].

Definition keyed_scoreboard : value := VDict [("events", VList [keyed_competitors])].

(** An event with two competitors about which nothing is said. *)
Definition bare_event : value :=
  VDict [("competitions", VList [VDict [("competitors", VList [VDict []; VDict []])]])].

Definition two_articles : list article :=
  [{| title := VStr "One"; description := VStr "First"; article_url := VStr "u1";
      source := VStr "Wire"; image := VStr ""; publishedAt := VStr "" |};
   {| title := VStr "Two"; description := VStr "Second"; article_url := VStr "u2";
      source := VStr "Wire"; image := VStr ""; publishedAt := VStr "" |}].

(** A mail server that refuses every message. *)
Definition refusing (P : platform) : platform :=
  {| environ := environ P;
     transport := transport P;
     smtp_send := fun _ _ _ => Refused (SMTPError "authentication failed");
     py_repr := py_repr P;
     str_of_exn := str_of_exn P;
     format_field := format_field P;
     date_long := date_long P;
     date_iso := date_iso P |}.

End Cases.

(* ================================================================== *)
(** * Loops and the error monads *)
(* ================================================================== *)

Lemma map_outcome_Forall2 {A B : Type} (f : A -> outcome B) (l : list A) (r : list B) :
  map_outcome f l = Return r -> Forall2 (fun a b => f a = Return b) l r.
Proof.
  revert r. induction l as [|x rest IH]; intros r H; simpl in H.
  - injection H as <-. constructor.
  - destruct (f x) as [y|] eqn:Hx; simpl in H; [|discriminate].
    destruct (map_outcome f rest) as [ys|]; simpl in H; [|discriminate].
    injection H as <-. constructor; [exact Hx | apply IH; reflexivity].
Qed.

Lemma Forall2_map_outcome {A B : Type} (f : A -> outcome B) (l : list A) (r : list B) :
  Forall2 (fun a b => f a = Return b) l r -> map_outcome f l = Return r.
Proof.
  induction 1 as [|x y l r Hx _ IH]; simpl; [reflexivity|].
  rewrite Hx, IH. reflexivity.
Qed.

Lemma filter_map_outcome_picks {A B : Type} (f : A -> outcome (option B))
      (l : list A) (r : list B) :
  filter_map_outcome f l = Return r ->
  exists picks, Forall2 (fun a o => f a = Return o) l picks
                /\ r = flat_map option_list picks.
Proof.
  revert r. induction l as [|x rest IH]; intros r H; simpl in H.
  - injection H as <-. exists []. split; [constructor | reflexivity].
  - destruct (f x) as [o|] eqn:Hx; simpl in H; [|discriminate].
    destruct (filter_map_outcome f rest) as [ys|]; simpl in H; [|discriminate].
    destruct (IH ys eq_refl) as (picks & Hp & ->).
    injection H as <-. exists (o :: picks). split.
    + constructor; assumption.
    + destruct o; reflexivity.
Qed.

Lemma flat_map_option_list_length {A : Type} (picks : list (option A)) :
  List.length (flat_map option_list picks) <= List.length picks.
Proof.
  induction picks as [|o rest IH]; simpl; [lia|].
  rewrite length_app. destruct o; simpl; lia.
Qed.

Lemma filter_map_outcome_length {A B : Type} (f : A -> outcome (option B))
      (l : list A) (r : list B) :
  filter_map_outcome f l = Return r -> List.length r <= List.length l.
Proof.
  intros H. destruct (filter_map_outcome_picks f l r H) as (picks & Hp & ->).
  rewrite (Forall2_length Hp). apply flat_map_option_list_length.
Qed.

Lemma absorbs_never_raises {A : Type} (P : platform) (adapter : M A) (r : request)
      (process : value -> outcome A) (empty : A) (diagnostic : exn -> string) :
  absorbs P adapter r process empty diagnostic -> never_raises adapter.
Proof.
  intros H w. rewrite (H w).
  destruct (obind (transport P r) process); eauto.
Qed.

(** What an absorbing adapter returns is what the processing gave, or
    the empty result. *)
Lemma absorbs_result {A : Type} (P : platform) (adapter : M A) (r : request)
      (process : value -> outcome A) (empty : A) (diagnostic : exn -> string)
      (w w' : world) (a : A) :
  absorbs P adapter r process empty diagnostic ->
  adapter w = (Return a, w') ->
  a = empty \/ exists data, transport P r = Return data /\ process data = Return a.
Proof.
  intros H Hw. rewrite (H w) in Hw.
  destruct (transport P r) as [data|e] eqn:Ht; simpl in Hw.
  - destruct (process data) as [a'|e] eqn:Hp.
    + right. exists data. split; [reflexivity|]. congruence.
    + left. congruence.
  - left. congruence.
Qed.

(** The value an absorbing adapter returns, in closed form. *)
Lemma absorbs_value {A : Type} (P : platform) (adapter : M A) (r : request)
      (process : value -> outcome A) (empty : A) (diagnostic : exn -> string)
      (w w' : world) (a : A) :
  absorbs P adapter r process empty diagnostic ->
  adapter w = (Return a, w') ->
  a = match obind (transport P r) process with
      | Return a' => a'
      | Raise _ => empty
      end.
Proof.
  intros H Hw. rewrite (H w) in Hw.
  destruct (obind (transport P r) process); congruence.
Qed.

(* ================================================================== *)
(** * The adapters *)
(* ================================================================== *)

Section Adapters.

Variable P : platform.
Variable self : generator.

Lemma fetch_news_absorbs (query : string) (num_articles : Z) :
  absorbs P (fetch_news P self query num_articles)
    (news_request self query num_articles)
    (fun data => articles_of data num_articles)
    [] (fetch_news_diagnostic P query).
Proof.
  intro w.
  unfold fetch_news, fetch_news_body, try_except, bind, http_get, lift, print, ret,
    after_request.
  destruct (transport P _) as [data|e]; simpl.
  - destruct (articles_of data num_articles); simpl; rewrite ?app_nil_r; reflexivity.
  - reflexivity.
Qed.

Lemma fetch_nba_scores_absorbs :
  absorbs P (fetch_nba_scores P) (scoreboard_request "basketball/nba")
    (fun data => let* gs := games_of data in
                 Return {| games := gs; date := Some (date_iso P) |})
    {| games := []; date := Some (date_iso P) |}
    (fun e => "Error fetching NBA scores: " ++ str_of_exn P e).
Proof.
  intro w.
  unfold fetch_nba_scores, fetch_nba_scores_body, try_except, bind, http_get, lift,
    print, ret, after_request.
  destruct (transport P _) as [data|e]; simpl.
  - destruct (games_of data); simpl; rewrite ?app_nil_r; reflexivity.
  - reflexivity.
Qed.

Lemma fetch_nfl_scores_absorbs :
  absorbs P (fetch_nfl_scores P) (scoreboard_request "football/nfl")
    (fun data => let* gs := games_of data in Return {| games := gs; date := None |})
    {| games := []; date := None |}
    (fun e => "Error fetching NFL scores: " ++ str_of_exn P e).
Proof.
  intro w.
  unfold fetch_nfl_scores, fetch_nfl_scores_body, try_except, bind, http_get, lift,
    print, ret, after_request.
  destruct (transport P _) as [data|e]; simpl.
  - destruct (games_of data); simpl; rewrite ?app_nil_r; reflexivity.
  - reflexivity.
Qed.

(** A league the map does not know: nothing is requested or printed. *)
Lemma fetch_soccer_scores_unknown (league : string) (w : world) :
  league_id_of league league_map = EmptyString ->
  fetch_soccer_scores P league w = (Return [], w).
Proof.
  intro H. unfold fetch_soccer_scores, fetch_soccer_scores_body, try_except.
  rewrite H. reflexivity.
Qed.

Lemma fetch_soccer_scores_absorbs (league : string) (c : ascii) (rest : string) :
  league_id_of league league_map = String c rest ->
  absorbs P (fetch_soccer_scores P league) (scoreboard_request (String c rest))
    top_games_of []
    (fun e => "Error fetching " ++ league ++ " scores: " ++ str_of_exn P e).
Proof.
  intros H w.
  unfold fetch_soccer_scores, fetch_soccer_scores_body, try_except.
  rewrite H.
  unfold bind, http_get, lift, print, ret, after_request.
  destruct (transport P _) as [data|e]; simpl.
  - destruct (top_games_of data); simpl; rewrite ?app_nil_r; reflexivity.
  - reflexivity.
Qed.

Lemma fetch_soccer_scores_never_raises (league : string) :
  never_raises (fetch_soccer_scores P league).
Proof.
  destruct (league_id_of league league_map) as [|c rest] eqn:H.
  - intro w. rewrite (fetch_soccer_scores_unknown league w H). eauto.
  - eapply absorbs_never_raises, fetch_soccer_scores_absorbs, H.
Qed.

(** C3. No adapter lets an exception out.  Each of [fetch_news],
    [fetch_nba_scores], [fetch_nfl_scores] and [fetch_soccer_scores]
    returns in every world; when the transport raises, or the decoded
    payload makes the processing raise, the call returns the empty
    record sequence (the empty list, or the dict whose games are the
    empty list) and prints exactly one diagnostic line naming the
    exception.  A league [fetch_soccer_scores] does not know gives the
    empty list with no request and no line. *)
Theorem adapters_absorb_failures (query : string) (num_articles : Z) (league : string) :
  (never_raises (fetch_news P self query num_articles)
   /\ absorbs P (fetch_news P self query num_articles)
        (news_request self query num_articles)
        (fun data => articles_of data num_articles)
        [] (fetch_news_diagnostic P query))
  /\ (never_raises (fetch_nba_scores P)
      /\ absorbs P (fetch_nba_scores P) (scoreboard_request "basketball/nba")
           (fun data => let* gs := games_of data in
                        Return {| games := gs; date := Some (date_iso P) |})
           {| games := []; date := Some (date_iso P) |}
           (fun e => "Error fetching NBA scores: " ++ str_of_exn P e))
  /\ (never_raises (fetch_nfl_scores P)
      /\ absorbs P (fetch_nfl_scores P) (scoreboard_request "football/nfl")
           (fun data => let* gs := games_of data in
                        Return {| games := gs; date := None |})
           {| games := []; date := None |}
           (fun e => "Error fetching NFL scores: " ++ str_of_exn P e))
  /\ (never_raises (fetch_soccer_scores P league)
      /\ match league_id_of league league_map with
         | EmptyString => forall w, fetch_soccer_scores P league w = (Return [], w)
         | league_id =>
             absorbs P (fetch_soccer_scores P league) (scoreboard_request league_id)
               top_games_of []
               (fun e => "Error fetching " ++ league ++ " scores: " ++ str_of_exn P e)
         end).
Proof.
  repeat split.
  - eapply absorbs_never_raises, fetch_news_absorbs.
  - apply fetch_news_absorbs.
  - eapply absorbs_never_raises, fetch_nba_scores_absorbs.
  - apply fetch_nba_scores_absorbs.
  - eapply absorbs_never_raises, fetch_nfl_scores_absorbs.
  - apply fetch_nfl_scores_absorbs.
  - apply fetch_soccer_scores_never_raises.
  - destruct (league_id_of league league_map) as [|c rest] eqn:H.
    + intro w. apply fetch_soccer_scores_unknown, H.
    + apply fetch_soccer_scores_absorbs, H.
Qed.

End Adapters.

(* ================================================================== *)
(** * The score records *)
(* ================================================================== *)

(** One step through a chain of [let*]: the bound computation returned. *)
Ltac returned H :=
  match type of H with
  | obind ?o _ = Return _ =>
      let E := fresh "E" in
      destruct o eqn:E; cbn [obind] in H; [|discriminate H]
  end.

Lemma game_of_some (event : value) (g : game) :
  game_of event = Return (Some g) ->
  exists competition competitors n c0 c1,
    first_competition event = Return competition
    /\ dict_get competition "competitors" (VList []) = Return competitors
    /\ py_len competitors = Return n /\ 2 <= n
    /\ subscript competitors 0 = Return c0
    /\ subscript competitors 1 = Return c1
    /\ team_name c0 = Return (home g)
    /\ dict_get c0 "score" (VStr "-") = Return (home_score g)
    /\ team_name c1 = Return (away g)
    /\ dict_get c1 "score" (VStr "-") = Return (away_score g)
    /\ status_of competition = Return (status g).
Proof.
  intro H. unfold game_of in H.
  destruct (first_competition event) as [competition|] eqn:Hc; cbn [obind] in H;
    [|discriminate H].
  returned H. returned H.
  destruct (2 <=? a0)%nat eqn:Hn; [|discriminate H].
  destruct (subscript a 0) as [c0|] eqn:H0; cbn [obind] in H; [|discriminate H].
  returned H.
  destruct (subscript a 1) as [c1|] eqn:H1; cbn [obind] in H; [|discriminate H].
  returned H. returned H. returned H. returned H.
  injection H as <-. cbn.
  exists competition, a, a0, c0, c1.
  apply Nat.leb_le in Hn.
  repeat split; assumption.
Qed.

Lemma game_of_none (event competition competitors : value) (n : nat) :
  first_competition event = Return competition ->
  dict_get competition "competitors" (VList []) = Return competitors ->
  py_len competitors = Return n ->
  n < 2 ->
  game_of event = Return None.
Proof.
  intros Hc Hcs Hn Hlt. unfold game_of. rewrite Hc. cbn [obind].
  rewrite Hcs. cbn [obind]. rewrite Hn. cbn [obind].
  destruct (2 <=? n)%nat eqn:Hle; [|reflexivity].
  apply Nat.leb_le in Hle. lia.
Qed.

Lemma two_competitors_indexable (items : list value) :
  2 <= List.length items ->
  exists c0 c1, subscript (VList items) 0 = Return c0
                /\ subscript (VList items) 1 = Return c1.
Proof.
  destruct items as [|c0 [|c1 rest]]; simpl; intro H; try lia.
  exists c0, c1. split; reflexivity.
Qed.

Lemma drawn_from_In (events : list value) (gs : list game) (g : game) :
  drawn_from events gs -> In g gs ->
  exists event, In event events /\ game_of event = Return (Some g).
Proof.
  intros (picks & Hp & ->). induction Hp as [|event pick events picks He _ IH]; simpl.
  - intros [].
  - intro Hin. apply in_app_or in Hin. destruct Hin as [Hin|Hin].
    + destruct pick as [g'|]; simpl in Hin; [|contradiction].
      destruct Hin as [<-|[]]. exists event. split; [left; reflexivity | exact He].
    + destruct (IH Hin) as (ev & Hev & Hg). exists ev. split; [right|]; assumption.
Qed.

Lemma games_of_drawn (data : value) (gs : list game) :
  games_of data = Return gs ->
  exists events, all_events data = Return events /\ drawn_from events gs.
Proof.
  unfold games_of. intro H. returned H. exists a. split; [reflexivity|].
  apply filter_map_outcome_picks, H.
Qed.

Lemma top_games_of_drawn (data : value) (gs : list game) :
  top_games_of data = Return gs ->
  exists events, top_events data = Return events /\ drawn_from events gs.
Proof.
  unfold top_games_of. intro H. returned H. exists a. split; [reflexivity|].
  apply filter_map_outcome_picks, H.
Qed.

(** The games an absorbing scoreboard fetcher returned come from the
    payload. *)
Lemma scoreboard_games_drawn (P : platform) (adapter : M scoreboard) (r : request)
      (stamp : option string) (diagnostic : exn -> string)
      (w w' : world) (sb : scoreboard) :
  absorbs P adapter r
    (fun data => let* gs := games_of data in Return {| games := gs; date := stamp |})
    {| games := []; date := stamp |} diagnostic ->
  adapter w = (Return sb, w') ->
  games sb = []
  \/ exists data events, transport P r = Return data
                         /\ all_events data = Return events
                         /\ drawn_from events (games sb).
Proof.
  intros Ha Hw.
  destruct (absorbs_result P adapter r _ _ _ w w' sb Ha Hw) as [->|(data & Ht & Hp)].
  - left. reflexivity.
  - right. returned Hp. injection Hp as <-. cbn.
    destruct (games_of_drawn data a E) as (events & He & Hd).
    exists data, events. auto.
Qed.

Lemma soccer_games_drawn (P : platform) (league : string) (w w' : world) (gs : list game) :
  fetch_soccer_scores P league w = (Return gs, w') ->
  gs = []
  \/ exists data events,
       transport P (scoreboard_request (league_id_of league league_map)) = Return data
       /\ top_events data = Return events
       /\ drawn_from events gs.
Proof.
  intro Hw. destruct (league_id_of league league_map) as [|c rest] eqn:Hl.
  - rewrite (fetch_soccer_scores_unknown P league w Hl) in Hw. left. congruence.
  - destruct (absorbs_result P _ _ _ _ _ w w' gs
                (fetch_soccer_scores_absorbs P league c rest Hl) Hw)
      as [->|(data & Ht & Hp)].
    + left. reflexivity.
    + right. destruct (top_games_of_drawn data gs Hp) as (events & He & Hd).
      exists data, events. auto.
Qed.

Lemma chars_length (s : string) : List.length (chars s) = str_len s.
Proof.
  induction s as [|c s IH]; simpl; [reflexivity|].
  destruct (is_continuation c); simpl; now rewrite IH.
Qed.

(** Past the guard: a list or a string of two or more can be indexed at 0
    and at 1; an object of two or more keys cannot, its keys are not
    numbers. *)
Lemma guard_then_index (competitors : value) (n : nat) :
  py_len competitors = Return n ->
  2 <= n ->
  match competitors with
  | VDict _ => subscript competitors 0 = Raise (KeyError (VInt 0))
  | _ => exists c0 c1, subscript competitors 0 = Return c0
                       /\ subscript competitors 1 = Return c1
  end.
Proof.
  intros Hn Hle. destruct competitors as [| | | |s|items|entries]; try discriminate Hn.
  - injection Hn as <-. rewrite <- chars_length in Hle. cbn [subscript].
    destruct (chars s) as [|c0 [|c1 rest]]; simpl in Hle; try lia.
    exists (VStr c0), (VStr c1). split; reflexivity.
  - injection Hn as <-. apply two_competitors_indexable, Hle.
  - reflexivity.
Qed.

Lemma keyed_competitors_raise (event competition : value)
      (entries : list (string * value)) :
  first_competition event = Return competition ->
  dict_get competition "competitors" (VList []) = Return (VDict entries) ->
  2 <= List.length entries ->
  game_of event = Raise (KeyError (VInt 0)).
Proof.
  intros Hc Hcs Hle. unfold game_of. rewrite Hc. cbn [obind].
  rewrite Hcs. cbn [obind py_len].
  destruct (2 <=? List.length entries)%nat eqn:Hb; [reflexivity|].
  apply Nat.leb_gt in Hb. lia.
Qed.

(** C10, as amended.  The score fetchers emit a record only for an event
    whose first competition has a competitors entry of length at least
    two, and every record takes the home team and score from the first
    competitor and the away team and score from the second.  An event
    with fewer is skipped without an exception.  Past the guard a list,
    or a string, can be indexed at 0 and at 1; an object with two keys
    or more passes the guard too, and indexing it raises [KeyError], so
    that the loop body raises.  Every game returned by
    [fetch_nba_scores], [fetch_nfl_scores] and [fetch_soccer_scores] is
    the record of an event of the payload that passed the guard. *)
Theorem score_records_guarded :
  (forall event g,
      game_of event = Return (Some g) ->
      exists competition competitors n c0 c1,
        first_competition event = Return competition
        /\ dict_get competition "competitors" (VList []) = Return competitors
        /\ py_len competitors = Return n /\ 2 <= n
        /\ subscript competitors 0 = Return c0
        /\ subscript competitors 1 = Return c1
        /\ team_name c0 = Return (home g)
        /\ dict_get c0 "score" (VStr "-") = Return (home_score g)
        /\ team_name c1 = Return (away g)
        /\ dict_get c1 "score" (VStr "-") = Return (away_score g)
        /\ status_of competition = Return (status g))
  /\ (forall event competition competitors n,
         first_competition event = Return competition ->
         dict_get competition "competitors" (VList []) = Return competitors ->
         py_len competitors = Return n ->
         n < 2 ->
         game_of event = Return None)
  /\ (forall items,
         2 <= List.length items ->
         exists c0 c1, subscript (VList items) 0 = Return c0
                       /\ subscript (VList items) 1 = Return c1)
  /\ (forall P w w' sb g,
         fetch_nba_scores P w = (Return sb, w') \/ fetch_nfl_scores P w = (Return sb, w') ->
         In g (games sb) ->
         exists data events event,
           (transport P (scoreboard_request "basketball/nba") = Return data
            \/ transport P (scoreboard_request "football/nfl") = Return data)
           /\ all_events data = Return events
           /\ In event events
           /\ game_of event = Return (Some g))
  /\ (forall P league w w' gs g,
         fetch_soccer_scores P league w = (Return gs, w') ->
         In g gs ->
         exists data events event,
           transport P (scoreboard_request (league_id_of league league_map)) = Return data
           /\ top_events data = Return events
           /\ In event events
           /\ game_of event = Return (Some g))
  /\ (forall competitors n,
         py_len competitors = Return n ->
         2 <= n ->
         match competitors with
         | VDict _ => subscript competitors 0 = Raise (KeyError (VInt 0))
         | _ => exists c0 c1, subscript competitors 0 = Return c0
                              /\ subscript competitors 1 = Return c1
         end)
  /\ (forall event competition entries,
         first_competition event = Return competition ->
         dict_get competition "competitors" (VList []) = Return (VDict entries) ->
         2 <= List.length entries ->
         game_of event = Raise (KeyError (VInt 0))).
Proof.
  split; [exact game_of_some|].
  split; [exact game_of_none|].
  split; [exact two_competitors_indexable|].
  split; [|split; [|split; [exact guard_then_index | exact keyed_competitors_raise]]].
  - intros P w w' sb g [Hw|Hw] Hin.
    + destruct (scoreboard_games_drawn P _ _ _ _ w w' sb (fetch_nba_scores_absorbs P) Hw)
        as [Hnil|(data & events & Ht & He & Hd)].
      * rewrite Hnil in Hin. destruct Hin.
      * destruct (drawn_from_In events (games sb) g Hd Hin) as (event & Hev & Hg).
        exists data, events, event. auto.
    + destruct (scoreboard_games_drawn P _ _ _ _ w w' sb (fetch_nfl_scores_absorbs P) Hw)
        as [Hnil|(data & events & Ht & He & Hd)].
      * rewrite Hnil in Hin. destruct Hin.
      * destruct (drawn_from_In events (games sb) g Hd Hin) as (event & Hev & Hg).
        exists data, events, event. auto.
  - intros P league w w' gs g Hw Hin.
    destruct (soccer_games_drawn P league w w' gs Hw)
      as [->|(data & events & Ht & He & Hd)].
    + destruct Hin.
    + destruct (drawn_from_In events gs g Hd Hin) as (event & Hev & Hg).
      exists data, events, event. auto.
Qed.

(** C10 as stated fails: the guard does not make the indexing safe for
    every payload.  An event whose competitors are an object with two
    keys passes the test on the length, and indexing it at 0 raises
    [KeyError]; the fetch then returns no game. *)
Lemma keyed_competitors_pass_the_guard :
  (exists competition competitors,
      first_competition Cases.keyed_competitors = Return competition
      /\ dict_get competition "competitors" (VList []) = Return competitors
      /\ py_len competitors = Return 2
      /\ subscript competitors 0 = Raise (KeyError (VInt 0)))
  /\ game_of Cases.keyed_competitors = Raise (KeyError (VInt 0))
  /\ fetch_nba_scores (Demo.platform_with (fun _ => Return Cases.keyed_scoreboard))
       empty_world =
     (Return {| games := []; date := Some "2026-11-04" |},
      {| stdout := ["Error fetching NBA scores: error"];
         requests := [scoreboard_request "basketball/nba"];
         outbox := [] |}).
Proof.
  split; [eexists; eexists; repeat split; reflexivity|].
  split; reflexivity.
Qed.

(* ================================================================== *)
(** * Result caps *)
(* ================================================================== *)

Lemma slice_stop_nonneg (len : nat) (n : Z) :
  (0 <= n)%Z -> slice_stop len n = Z.to_nat n.
Proof.
  intro H. unfold slice_stop. destruct (n <? 0)%Z eqn:Hn; [|reflexivity].
  apply Z.ltb_lt in Hn. lia.
Qed.

Lemma take_length (n : nat) (s : string) :
  str_len (take n s) = Nat.min n (str_len s).
Proof.
  revert n. induction s as [|c s IH]; intro n; simpl.
  - now rewrite Nat.min_0_r.
  - destruct (is_continuation c) eqn:Hc.
    + simpl. rewrite Hc. apply IH.
    + destruct n as [|n]; simpl; [reflexivity|]. rewrite Hc, IH. reflexivity.
Qed.

Lemma take_all (n : nat) (s : string) : str_len s <= n -> take n s = s.
Proof.
  revert n. induction s as [|c s IH]; intros n H; simpl in *; [reflexivity|].
  destruct (is_continuation c).
  - f_equal. apply IH, H.
  - destruct n as [|n]; [lia|]. f_equal. apply IH. lia.
Qed.

(** The sequence a slice [[:n]] with [0 <= n] leaves to walk has at most
    [n] elements. *)
Lemma sliced_length (listed kept : value) (n : Z) (items : list value) :
  (0 <= n)%Z ->
  slice_to listed n = Return kept ->
  py_iter kept = Return items ->
  List.length items <= Z.to_nat n.
Proof.
  intros Hn Hs Hi. destruct listed; simpl in Hs; try discriminate Hs;
    injection Hs as <-; simpl in Hi; injection Hi as <-;
    rewrite slice_stop_nonneg by assumption.
  - rewrite length_map, chars_length, take_length. lia.
  - rewrite length_firstn. lia.
Qed.

Lemma listed_articles_cap (data : value) (cap : Z) (items : list value) :
  (0 <= cap)%Z ->
  listed_articles data cap = Return items ->
  List.length items <= Z.to_nat cap.
Proof.
  intros Hc H. unfold listed_articles in H. returned H.
  destruct (slice_to a cap) as [kept|] eqn:Hs; cbn [obind] in H; [|discriminate H].
  eapply sliced_length; eassumption.
Qed.

Lemma listed_articles_list (data : value) (cap : Z) (l : list value) :
  (0 <= cap)%Z ->
  dict_get data "articles" (VList []) = Return (VList l) ->
  listed_articles data cap = Return (firstn (Z.to_nat cap) l).
Proof.
  intros Hc H. unfold listed_articles. rewrite H. cbn.
  rewrite slice_stop_nonneg by assumption. reflexivity.
Qed.

Lemma top_events_cap (data : value) (events : list value) :
  top_events data = Return events -> List.length events <= 5.
Proof.
  intro H. unfold top_events in H. returned H.
  destruct (slice_to a 5) as [kept|] eqn:Hs; cbn [obind] in H; [|discriminate H].
  change 5 with (Z.to_nat 5). eapply sliced_length; try eassumption. lia.
Qed.

Lemma top_events_list (data : value) (l : list value) :
  dict_get data "events" (VList []) = Return (VList l) ->
  top_events data = Return (firstn 5 l).
Proof. intro H. unfold top_events. rewrite H. reflexivity. Qed.

Lemma all_events_list (data : value) (l : list value) :
  dict_get data "events" (VList []) = Return (VList l) ->
  all_events data = Return l.
Proof. intro H. unfold all_events. rewrite H. reflexivity. Qed.

Lemma drawn_from_length (events : list value) (gs : list game) :
  drawn_from events gs -> List.length gs <= List.length events.
Proof.
  intros (picks & Hp & ->). rewrite (Forall2_length Hp).
  apply flat_map_option_list_length.
Qed.

(** C6, as amended.  With a cap that is not negative, [fetch_news]
    returns at most [cap] records: when the payload lists its articles
    in a list, they are the records of the first [min cap n] of them, in
    the provider's order, or none at all when anything failed.
    [fetch_soccer_scores] returns at most five games, drawn in order from
    the first five events.  [fetch_nba_scores] and [fetch_nfl_scores]
    apply no cap: their games are the records, in order, of all the
    events of the payload that list two competitors, or none at all when
    anything failed. *)
Theorem results_capped (P : platform) (self : generator) (query : string) (cap : Z)
        (league : string) (w : world) :
  (0 <= cap)%Z ->
  (forall recs w',
      fetch_news P self query cap w = (Return recs, w') ->
      List.length recs <= Z.to_nat cap
      /\ forall data items,
           transport P (news_request self query cap) = Return data ->
           dict_get data "articles" (VList []) = Return (VList items) ->
           match map_outcome article_of (firstn (Z.to_nat cap) items) with
           | Return normalised =>
               recs = normalised
               /\ List.length recs = Nat.min (Z.to_nat cap) (List.length items)
           | Raise _ => recs = []
           end)
  /\ (forall gs w',
         fetch_soccer_scores P league w = (Return gs, w') ->
         List.length gs <= 5
         /\ forall data events,
              transport P (scoreboard_request (league_id_of league league_map)) = Return data ->
              dict_get data "events" (VList []) = Return (VList events) ->
              gs = [] \/ drawn_from (firstn 5 events) gs)
  /\ (forall sb w' data events,
         fetch_nba_scores P w = (Return sb, w') ->
         transport P (scoreboard_request "basketball/nba") = Return data ->
         dict_get data "events" (VList []) = Return (VList events) ->
         match filter_map_outcome game_of events with
         | Return gs => games sb = gs /\ drawn_from events gs
         | Raise _ => games sb = []
         end)
  /\ (forall sb w' data events,
         fetch_nfl_scores P w = (Return sb, w') ->
         transport P (scoreboard_request "football/nfl") = Return data ->
         dict_get data "events" (VList []) = Return (VList events) ->
         match filter_map_outcome game_of events with
         | Return gs => games sb = gs /\ drawn_from events gs
         | Raise _ => games sb = []
         end).
Proof.
  intro Hcap. repeat apply conj.
  - intros recs w' Hw. split.
    + destruct (absorbs_result P _ _ _ _ _ w w' recs
                  (fetch_news_absorbs P self query cap) Hw)
        as [->|(data & Ht & Hp)]; [simpl; lia|].
      unfold articles_of in Hp.
      destruct (listed_articles data cap) as [walked|] eqn:Hl; cbn [obind] in Hp;
        [|discriminate Hp].
      rewrite <- (Forall2_length (map_outcome_Forall2 _ _ _ Hp)).
      eapply listed_articles_cap; eassumption.
    + intros data items Ht Hd.
      pose proof (absorbs_value P _ _ _ _ _ w w' recs
                    (fetch_news_absorbs P self query cap) Hw) as Hv.
      rewrite Ht in Hv. cbn [obind] in Hv. unfold articles_of in Hv.
      rewrite (listed_articles_list data cap items Hcap Hd) in Hv. cbn [obind] in Hv.
      destruct (map_outcome article_of (firstn (Z.to_nat cap) items)) as [normalised|e]
        eqn:Hm; [|exact Hv].
      split; [exact Hv|]. subst recs.
      rewrite <- (Forall2_length (map_outcome_Forall2 _ _ _ Hm)). apply length_firstn.
  - intros gs w' Hw.
    destruct (soccer_games_drawn P league w w' gs Hw)
      as [->|(data & events & Ht & He & Hd)].
    + split; [simpl; lia | intros; left; reflexivity].
    + split.
      * pose proof (drawn_from_length _ _ Hd). pose proof (top_events_cap _ _ He). lia.
      * intros data' l Ht' Hl. right.
        assert (data' = data) as -> by congruence.
        rewrite (top_events_list data l Hl) in He. injection He as <-. exact Hd.
  - intros sb w' data l Hw Ht Hl.
    pose proof (absorbs_value P _ _ _ _ _ w w' sb (fetch_nba_scores_absorbs P) Hw) as Hv.
    rewrite Ht in Hv. cbn [obind] in Hv. unfold games_of in Hv.
    rewrite (all_events_list data l Hl) in Hv. cbn [obind] in Hv.
    destruct (filter_map_outcome game_of l) as [gs|e] eqn:Hg; cbn [obind] in Hv;
      subst sb; cbn [games]; [|reflexivity].
    split; [reflexivity | exact (filter_map_outcome_picks _ _ _ Hg)].
  - intros sb w' data l Hw Ht Hl.
    pose proof (absorbs_value P _ _ _ _ _ w w' sb (fetch_nfl_scores_absorbs P) Hw) as Hv.
    rewrite Ht in Hv. cbn [obind] in Hv. unfold games_of in Hv.
    rewrite (all_events_list data l Hl) in Hv. cbn [obind] in Hv.
    destruct (filter_map_outcome game_of l) as [gs|e] eqn:Hg; cbn [obind] in Hv;
      subst sb; cbn [games]; [|reflexivity].
    split; [reflexivity | exact (filter_map_outcome_picks _ _ _ Hg)].
Qed.

(** The cap at work: asked for three India articles and given ten, the
    adapter returns the first three, in the provider's order. *)
Lemma results_capped_witness :
  (0 <= 3)%Z
  /\ exists recs w',
       fetch_news (Demo.platform_with Demo.ten_india_articles) Demo.self "India news" 3
         empty_world = (Return recs, w')
       /\ List.length recs <= Z.to_nat 3
       /\ map title recs = [VStr "Headline 1"; VStr "Headline 2"; VStr "Headline 3"].
Proof.
  split; [lia|].
  eexists. eexists. split; [vm_compute; reflexivity|].
  split; [|reflexivity].
  refine (proj1 (proj1 (results_capped (Demo.platform_with Demo.ten_india_articles)
                          Demo.self "India news" 3 "premier-league" empty_world _)
                   _ _ _)).
  - lia.
  - vm_compute. reflexivity.
Defined.

(** C6 as stated fails: [fetch_nba_scores] has no cap.  Given six events
    with two competitors each it returns six games. *)
Lemma nba_scores_uncapped :
  exists sb w',
    fetch_nba_scores (Demo.platform_with Demo.six_nba_games) empty_world = (Return sb, w')
    /\ List.length (games sb) = 6
    /\ 5 < List.length (games sb).
Proof.
  eexists. eexists. split; [vm_compute; reflexivity|].
  split; [reflexivity | simpl; lia].
Qed.

(* ================================================================== *)
(** * Normalisation and the rendering of one record *)
(* ================================================================== *)

Lemma dict_get_absent (entries : list (string * value)) (k : string) (default : value) :
  lookup k entries = None -> dict_get (VDict entries) k default = Return default.
Proof. intro H. simpl. rewrite H. reflexivity. Qed.

Lemma dict_get_present (entries : list (string * value)) (k : string) (default v : value) :
  lookup k entries = Some v -> dict_get (VDict entries) k default = Return v.
Proof. intro H. simpl. rewrite H. reflexivity. Qed.

(** An article with no field at all gets every default. *)
Lemma article_of_empty :
  article_of (VDict []) =
  Return {| title := VStr ""; description := VStr ""; article_url := VStr "";
            source := VStr ""; image := VStr ""; publishedAt := VStr "" |}.
Proof. reflexivity. Qed.

(** C4 on the code: a field that is present and null is not replaced.
    An article whose description is null yields a record whose
    description is [None]; an article whose source is null makes the
    whole fetch lose its records; and the renderer raises on the record
    that kept the [None]. *)
Theorem null_field_not_defaulted :
  articles_of (VDict [("articles", VList [Demo.storm])]) 5 =
    Return [{| title := VStr "Storm nears coast"; description := VNone;
               article_url := VStr ""; source := VStr ""; image := VStr "";
               publishedAt := VStr "" |}]
  /\ fst (fetch_news (Demo.platform_with Demo.us_news_null_description) Demo.self
            "US news" 5 empty_world) =
       Return [{| title := VStr "Storm nears coast"; description := VNone;
                  article_url := VStr ""; source := VStr ""; image := VStr "";
                  publishedAt := VStr "" |}]
  /\ articles_of (VDict [("articles", VList [Demo.no_source])]) 5 = Raise AttributeError
  /\ summary_text (Demo.platform_with Demo.us_news_null_description) VNone = Raise TypeError.
Proof. repeat split; vm_compute; reflexivity. Qed.

Lemma summary_text_string (P : platform) (s : string) :
  summary_text P (VStr s) = Return (take 200 s ++ "...").
Proof.
  unfold summary_text, slice_to. rewrite slice_stop_nonneg by lia.
  change (Z.to_nat 200) with 200. reflexivity.
Qed.

Lemma take_prefix (n : nat) (s : string) : exists rest, s = take n s ++ rest.
Proof.
  revert n. induction s as [|c s IH]; intro n; simpl.
  - exists EmptyString. reflexivity.
  - destruct (is_continuation c).
    + destruct (IH n) as (rest & H). exists rest. simpl. rewrite <- H. reflexivity.
    + destruct n as [|n].
      * exists (String c s). reflexivity.
      * destruct (IH n) as (rest & H). exists rest. simpl. rewrite <- H. reflexivity.
Qed.

(** C5, as amended.  The summary of a news record is rendered as the
    first [min 200 n] characters of its description followed by the
    ellipsis marker, whatever its length [n]: a description of at most
    200 characters is rendered whole and still followed by the marker; a
    longer one is cut to exactly 200 characters.  The block of the
    article carries that text. *)
Theorem summary_always_marked (P : platform) (s : string) :
  summary_text P (VStr s) = Return (take 200 s ++ "...")
  /\ (exists rest, s = take 200 s ++ rest)
  /\ str_len (take 200 s) = Nat.min 200 (str_len s)
  /\ (str_len s <= 200 -> summary_text P (VStr s) = Return (s ++ "..."))
  /\ (forall a, description a = VStr s ->
                article_block P a = Return (article_template P a (take 200 s ++ "..."))).
Proof.
  split; [apply summary_text_string|].
  split; [apply take_prefix|].
  split; [apply take_length|].
  split.
  - intro H. rewrite summary_text_string, take_all by assumption. reflexivity.
  - intros a Ha. unfold article_block. rewrite Ha, summary_text_string. reflexivity.
Qed.

(** The cut counts characters, not bytes: a right single quotation mark
    (three bytes) followed by 250 letters keeps the mark and 199
    letters. *)
Lemma summary_cut_counts_characters :
  str_len "’ab" = 3
  /\ take 2 "’ab" = "’a"
  /\ summary_text (Demo.platform_with Demo.quiet)
       (VStr ("’" ++ String.concat "" (repeat "a" 250))) =
     Return ("’" ++ String.concat "" (repeat "a" 199) ++ "...").
Proof. repeat split; vm_compute; reflexivity. Qed.

(** C5 as stated fails: a four-character summary is rendered with the
    marker appended, not unchanged. *)
Lemma short_summary_gets_marker :
  summary_text (Demo.platform_with Demo.quiet) (VStr "Rain") = Return "Rain..."
  /\ summary_text (Demo.platform_with Demo.quiet) (VStr "Rain") <> Return "Rain".
Proof. split; [reflexivity | discriminate]. Qed.

(** C9 on the code: the block of a soccer game has the teams and the
    scores but not the status, whatever the status is; the block of an
    NBA game has all three. *)
Theorem soccer_block_omits_status :
  contains "Everton vs Arsenal" (soccer_block (Demo.platform_with Demo.quiet) Demo.postponed)
    = true
  /\ contains "- - -" (soccer_block (Demo.platform_with Demo.quiet) Demo.postponed) = true
  /\ contains "Postponed" (soccer_block (Demo.platform_with Demo.quiet) Demo.postponed)
     = false
  /\ contains "Everton @ Arsenal" (nba_block (Demo.platform_with Demo.quiet) Demo.postponed)
     = true
  /\ contains "- - -" (nba_block (Demo.platform_with Demo.quiet) Demo.postponed) = true
  /\ contains "Postponed" (nba_block (Demo.platform_with Demo.quiet) Demo.postponed) = true
  /\ (forall P g st,
         soccer_block P g =
         soccer_block P {| home := home g; away := away g; home_score := home_score g;
                           away_score := away_score g; status := st |}).
Proof.
  repeat apply conj; try (vm_compute; reflexivity); intros P g st; reflexivity.
Qed.

(* ================================================================== *)
(** * The header *)
(* ================================================================== *)

(** The style sheet of the template is written with single braces, so
    [format] reads its first rule as a replacement field named
    [ font-family] and looks the name up among keyword arguments that
    were never given. *)
Lemma digest_header_raises (P : platform) :
  digest_header P = Raise (KeyError (VStr " font-family")).
Proof. vm_compute. reflexivity. Qed.

Lemma generate_html_digest_raises (P : platform) (self : generator) (w : world) :
  generate_html_digest P self w = (Raise (KeyError (VStr " font-family")), w).
Proof.
  unfold generate_html_digest, bind, lift. rewrite digest_header_raises. reflexivity.
Qed.

(** What [main] comes to: the exit status is 1 in every case. *)
Lemma main_exits_1 (P : platform) (w : world) :
  main P w =
  match init P with
  | Return _ =>
      (1, {| stdout := ((stdout w ++ ["Generating daily news digest..."])
                          ++ [("Fatal error: " ++ str_of_exn P (KeyError (VStr " font-family")))%string])%list;
             requests := requests w;
             outbox := outbox w |})
  | Raise e =>
      (1, {| stdout := (stdout w ++ [("Fatal error: " ++ str_of_exn P e)%string])%list;
             requests := requests w;
             outbox := outbox w |})
  end.
Proof.
  unfold main, bind, lift. destruct (init P) as [g|e]; [|reflexivity].
  unfold print at 1. rewrite generate_html_digest_raises. reflexivity.
Qed.

(** C2 on the code: no run renders an artifact.  [generate_html_digest]
    raises on its first statement, whatever the providers answer, so no
    section block is ever produced. *)
Theorem no_digest_is_rendered (P : platform) (self : generator) (w w' : world)
        (html : string) :
  generate_html_digest P self w <> (Return html, w').
Proof. rewrite generate_html_digest_raises. discriminate. Qed.

(** C7 on the code: with every required setting present, a mail server
    that accepts the message and providers that all answer, the run
    still exits with status 1, having fetched and sent nothing; and the
    same holds of every run. *)
Theorem valid_run_fails :
  init (Demo.platform_with Demo.quiet) = Return Demo.self
  /\ (forall html,
         send_email (Demo.platform_with Demo.quiet) Demo.self html empty_world =
         (Return tt,
          {| stdout := ["Email sent successfully to reader@example.org"];
             requests := [];
             outbox := [digest_message (Demo.platform_with Demo.quiet) Demo.self html] |}))
  /\ main (Demo.platform_with Demo.quiet) empty_world =
     (1, {| stdout := ["Generating daily news digest..."; "Fatal error: error"];
            requests := [];
            outbox := [] |})
  /\ (forall P w,
         fst (main P w) = 1
         /\ requests (snd (main P w)) = requests w
         /\ outbox (snd (main P w)) = outbox w).
Proof.
  split; [reflexivity|].
  split; [intro html; reflexivity|].
  split; [rewrite main_exits_1; reflexivity|].
  intros P w. rewrite main_exits_1. destruct (init P); auto.
Qed.

(** C1 on the code: when the request for US news times out the run does
    not complete.  [generate_html_digest] raises before any adapter is
    called and [main] exits with status 1.  Past the header the sections
    are not safe either: with the US news timing out and a null
    description among the Europe news, the section loop raises. *)
Theorem adapter_failure_run_aborts :
  generate_html_digest (Demo.platform_with Demo.us_news_times_out) Demo.self empty_world =
    (Raise (KeyError (VStr " font-family")), empty_world)
  /\ fst (main (Demo.platform_with Demo.us_news_times_out) empty_world) = 1
  /\ fst (digest_sections (Demo.platform_with Demo.timeout_then_null) Demo.self
            EmptyString empty_world) = Raise TypeError.
Proof.
  split; [apply generate_html_digest_raises|].
  split; [rewrite main_exits_1; reflexivity|].
  vm_compute. reflexivity.
Qed.

(* ================================================================== *)
(** * Fetching and rendering *)
(* ================================================================== *)

Section Factoring.

Variable P : platform.
Variable self : generator.

Lemma fetch_news_returns (query : string) (count : Z) (w : world) :
  exists articles w', fetch_news P self query count w = (Return articles, w').
Proof. exact (absorbs_never_raises _ _ _ _ _ _ (fetch_news_absorbs P self query count) w). Qed.

Lemma fetch_nba_scores_returns (w : world) :
  exists sb w', fetch_nba_scores P w = (Return sb, w').
Proof. exact (absorbs_never_raises _ _ _ _ _ _ (fetch_nba_scores_absorbs P) w). Qed.

Lemma aggregate_news_returns (entries : list (string * (string * Z))) (w : world) :
  exists sections w', TwoPhase.aggregate_news P self entries w = (Return sections, w').
Proof.
  revert w. induction entries as [|[section_title [query count]] rest IH]; intro w.
  - exists [], w. reflexivity.
  - destruct (fetch_news_returns query count w) as (articles & w1 & Hf).
    destruct (IH w1) as (sections & w2 & Ha).
    exists ((section_title, articles) :: sections), w2.
    cbn [TwoPhase.aggregate_news]. unfold bind. rewrite Hf, Ha. reflexivity.
Qed.

(** The news loop against the two phases: the same fetches in the same
    order and the same text when rendering returns; the exception of the
    first block that fails when it does not. *)
Lemma news_loop_factors (entries : list (string * (string * Z))) (html : string)
      (w : world) :
  match news_loop P self entries html w with
  | (Return out, w') =>
      exists sections,
        TwoPhase.aggregate_news P self entries w = (Return sections, w')
        /\ TwoPhase.render_news P sections html = Return out
  | (Raise e, _) =>
      exists sections w'',
        TwoPhase.aggregate_news P self entries w = (Return sections, w'')
        /\ TwoPhase.render_news P sections html = Raise e
  end.
Proof.
  revert html w. induction entries as [|[section_title [query count]] rest IH];
    intros html w.
  - exists []. split; reflexivity.
  - cbn [news_loop TwoPhase.aggregate_news]. unfold news_section, bind, lift.
    destruct (fetch_news_returns query count w) as (articles & w1 & Hf). rewrite Hf.
    destruct (render_news_section P section_title articles html) as [html1|e] eqn:Hr.
    + specialize (IH html1 w1).
      destruct (news_loop P self rest html1 w1) as [[out|e] w2].
      * destruct IH as (sections & Ha & Hren).
        exists ((section_title, articles) :: sections). unfold bind in Ha. rewrite Ha.
        split; [reflexivity|]. cbn [TwoPhase.render_news]. rewrite Hr. exact Hren.
      * destruct IH as (sections & w'' & Ha & Hren).
        exists ((section_title, articles) :: sections), w''. unfold bind in Ha. rewrite Ha.
        split; [reflexivity|]. cbn [TwoPhase.render_news]. rewrite Hr. exact Hren.
    + destruct (aggregate_news_returns rest w1) as (sections & w2 & Ha).
      exists ((section_title, articles) :: sections), w2. unfold bind in Ha. rewrite Ha.
      split; [reflexivity|]. cbn [TwoPhase.render_news]. rewrite Hr. reflexivity.
Qed.

Lemma nba_section_factors (html : string) (w : world) :
  exists sb w',
    fetch_nba_scores P w = (Return sb, w')
    /\ nba_section P html w = (Return (render_nba_section P sb (html ++ nba_heading)), w').
Proof.
  destruct (fetch_nba_scores_returns w) as (sb & w' & Hf).
  exists sb, w'. split; [exact Hf|].
  unfold nba_section, bind, ret. rewrite Hf. reflexivity.
Qed.

Lemma soccer_loop_factors (entries : list (string * string)) (html : string) (w : world) :
  exists sections w',
    TwoPhase.aggregate_soccer P entries w = (Return sections, w')
    /\ soccer_loop P entries html w = (Return (TwoPhase.render_soccer P sections html), w').
Proof.
  revert html w. induction entries as [|[league_name league_id] rest IH]; intros html w.
  - exists [], w. split; reflexivity.
  - destruct (fetch_soccer_scores_never_raises P league_id w) as (gs & w1 & Hf).
    destruct (IH (render_league_section P league_name gs html) w1)
      as (sections & w2 & Ha & Hl).
    exists ((league_name, gs) :: sections), w2.
    cbn [soccer_loop TwoPhase.aggregate_soccer TwoPhase.render_soccer].
    unfold league_section, bind, ret. rewrite Hf. unfold bind in Ha. rewrite Ha.
    split; [reflexivity | exact Hl].
Qed.

Lemma bind_returns {A B : Type} (m : M A) (k : A -> M B) (w w' : world) (a : A) :
  m w = (Return a, w') -> bind m k w = k a w'.
Proof. intro H. unfold bind. rewrite H. reflexivity. Qed.

Lemma bind_raises {A B : Type} (m : M A) (k : A -> M B) (w w' : world) (e : exn) :
  m w = (Raise e, w') -> bind m k w = (Raise e, w').
Proof. intro H. unfold bind. rewrite H. reflexivity. Qed.

(** The section part against the two phases. *)
Lemma digest_sections_factors (html : string) (w : world) :
  match digest_sections P self html w with
  | (Return out, w') => TwoPhase.generate P self html w = (Return out, w')
  | (Raise e, _) => fst (TwoPhase.generate P self html w) = Raise e
  end.
Proof.
  unfold digest_sections, TwoPhase.generate, TwoPhase.aggregate.
  pose proof (news_loop_factors news_sections html w) as Hn.
  destruct (news_loop P self news_sections html w) as [[out1|e] w1] eqn:Hloop.
  - destruct Hn as (sections & Ha & Hr).
    destruct (nba_section_factors out1 w1) as (sb & w2 & Hf & Hs).
    destruct (soccer_loop_factors soccer_leagues
                (render_nba_section P sb (out1 ++ nba_heading) ++ soccer_heading) w2)
      as (leagues & w3 & Hb & Hl).
    rewrite (bind_returns _ _ _ _ _ Hloop), (bind_returns _ _ _ _ _ Hs),
      (bind_returns _ _ _ _ _ Hl).
    rewrite (bind_returns (bind (TwoPhase.aggregate_news P self news_sections) _) _ w w3
               {| TwoPhase.news := sections; TwoPhase.nba := sb; TwoPhase.soccer := leagues |}).
    + unfold ret, lift, TwoPhase.render. cbn [TwoPhase.news TwoPhase.nba TwoPhase.soccer].
      rewrite Hr. reflexivity.
    + rewrite (bind_returns _ _ _ _ _ Ha), (bind_returns _ _ _ _ _ Hf),
        (bind_returns _ _ _ _ _ Hb). reflexivity.
  - destruct Hn as (sections & w'' & Ha & Hr).
    destruct (fetch_nba_scores_returns w'') as (sb & w2 & Hf).
    destruct (soccer_loop_factors soccer_leagues EmptyString w2) as (leagues & w3 & Hb & _).
    rewrite (bind_raises _ _ _ _ _ Hloop).
    rewrite (bind_returns (bind (TwoPhase.aggregate_news P self news_sections) _) _ w w3
               {| TwoPhase.news := sections; TwoPhase.nba := sb; TwoPhase.soccer := leagues |}).
    + unfold lift, TwoPhase.render. cbn [TwoPhase.news TwoPhase.nba TwoPhase.soccer fst].
      rewrite Hr. reflexivity.
    + rewrite (bind_returns _ _ _ _ _ Ha), (bind_returns _ _ _ _ _ Hf),
        (bind_returns _ _ _ _ _ Hb). reflexivity.
Qed.

Lemma aggregate_news_labels (entries : list (string * (string * Z))) (w w' : world)
      (sections : list (string * list article)) :
  TwoPhase.aggregate_news P self entries w = (Return sections, w') ->
  map fst sections = map fst entries.
Proof.
  revert w w' sections. induction entries as [|[section_title [query count]] rest IH];
    intros w w' sections H.
  - injection H as <- _. reflexivity.
  - cbn [TwoPhase.aggregate_news] in H.
    destruct (fetch_news_returns query count w) as (articles & w1 & Hf).
    rewrite (bind_returns _ _ _ _ _ Hf) in H.
    destruct (aggregate_news_returns rest w1) as (tail & w2 & Ha).
    rewrite (bind_returns _ _ _ _ _ Ha) in H. injection H as <- _.
    cbn. f_equal. exact (IH _ _ _ Ha).
Qed.

Lemma aggregate_soccer_labels (entries : list (string * string)) (w w' : world)
      (sections : list (string * list game)) :
  TwoPhase.aggregate_soccer P entries w = (Return sections, w') ->
  map fst sections = map fst entries.
Proof.
  revert w w' sections. induction entries as [|[league_name league_id] rest IH];
    intros w w' sections H.
  - injection H as <- _. reflexivity.
  - cbn [TwoPhase.aggregate_soccer] in H.
    destruct (fetch_soccer_scores_never_raises P league_id w) as (gs & w1 & Hf).
    rewrite (bind_returns _ _ _ _ _ Hf) in H.
    destruct (soccer_loop_factors rest EmptyString w1) as (tail & w2 & Ha & _).
    rewrite (bind_returns _ _ _ _ _ Ha) in H. injection H as <- _.
    cbn. f_equal. exact (IH _ _ _ Ha).
Qed.

(** C8, as amended.  The part of [generate_html_digest] after the header
    builds no document and alternates fetching and rendering, yet it
    agrees with the two phases of the specification wherever rendering
    returns: it then yields the same text and leaves the same world (the
    same requests and the same printed lines, in the same order) as
    fetching every section first and rendering the document after.  When
    the rendering of a block raises, both raise the same exception. *)
Theorem sections_agree_with_two_phases (html : string) (w : world) :
  match digest_sections P self html w with
  | (Return out, w') => TwoPhase.generate P self html w = (Return out, w')
  | (Raise e, _) => fst (TwoPhase.generate P self html w) = Raise e
  end.
Proof. apply digest_sections_factors. Qed.

End Factoring.

(** C8 as stated fails: rendering starts before the fetching is over.
    After the first turn of the news loop the text already holds the
    first section while one request only has been issued; and when the
    first article of the US news has a null description, the program
    stops after that one request where the two phases issue all
    sixteen, so the two do not agree. *)
Lemma rendering_starts_before_fetching_ends :
  (exists w1,
      news_section (Demo.platform_with Demo.quiet) Demo.self
        ("Top 5 US News", ("US news", 5%Z)) EmptyString empty_world =
      (Return ("<h2>Top 5 US News</h2>" ++ nl
               ++ "<p style='color: #999;'>No articles found at this time.</p>" ++ nl),
       w1)
      /\ List.length (requests w1) = 1)
  /\ List.length
       (requests (snd (digest_sections (Demo.platform_with Demo.us_news_null_description)
                         Demo.self EmptyString empty_world))) = 1
  /\ List.length
       (requests (snd (TwoPhase.generate (Demo.platform_with Demo.us_news_null_description)
                         Demo.self EmptyString empty_world))) = 16
  /\ digest_sections (Demo.platform_with Demo.us_news_null_description)
       Demo.self EmptyString empty_world
     <> TwoPhase.generate (Demo.platform_with Demo.us_news_null_description)
          Demo.self EmptyString empty_world.
Proof.
  split; [eexists; split; vm_compute; reflexivity|].
  split; [vm_compute; reflexivity|].
  split; [vm_compute; reflexivity|].
  intro H. apply (f_equal (fun r => List.length (requests (snd r)))) in H.
  vm_compute in H. discriminate H.
Qed.

(* ================================================================== *)
(** * The section loops, taken past the header *)
(* ================================================================== *)

(** X1. A news section whose fetch fails, in the transport or on the
    payload, is rendered as its heading followed by the placeholder; the
    text built so far is kept, one request is issued and one diagnostic
    printed. *)
Theorem failed_news_section_placeholder (P : platform) (self : generator)
        (section_title query : string) (count : Z) (html : string) (w : world) (e : exn) :
  obind (transport P (news_request self query count)) (fun data => articles_of data count)
    = Raise e ->
  news_section P self (section_title, (query, count)) html w =
  (Return ((html ++ news_heading section_title) ++ news_placeholder),
   after_request w (news_request self query count) [fetch_news_diagnostic P query e]).
Proof.
  intro H. unfold news_section.
  erewrite bind_returns.
  2:{ rewrite (fetch_news_absorbs P self query count w), H. reflexivity. }
  reflexivity.
Qed.

Lemma failed_news_section_placeholder_witness :
  news_section (Demo.platform_with Demo.us_news_times_out) Demo.self
    ("Top 5 US News", ("US news", 5%Z)) "<h1>Digest</h1>" empty_world =
  (Return ("<h1>Digest</h1><h2>Top 5 US News</h2>" ++ nl
           ++ "<p style='color: #999;'>No articles found at this time.</p>" ++ nl),
   {| stdout := ["Error fetching news for 'US news': error"];
      requests := [news_request Demo.self "US news" 5];
      outbox := [] |}).
Proof.
  exact (failed_news_section_placeholder (Demo.platform_with Demo.us_news_times_out)
           Demo.self "Top 5 US News" "US news" 5 "<h1>Digest</h1>" empty_world
           (RequestError "timed out") eq_refl).
Defined.

(** X2. What an adapter returns depends on the network only through the
    answer to its own request: change the answers to all other requests
    and the adapter returns the same records. *)
Theorem adapter_reads_its_own_answer (P : platform) (t : request -> outcome value)
        (self : generator) (query : string) (count : Z) (league : string) (w w' : world) :
  (transport P (news_request self query count) = t (news_request self query count) ->
   fst (fetch_news P self query count w)
   = fst (fetch_news (with_transport P t) self query count w'))
  /\ (transport P (scoreboard_request "basketball/nba") = t (scoreboard_request "basketball/nba") ->
      fst (fetch_nba_scores P w) = fst (fetch_nba_scores (with_transport P t) w'))
  /\ (transport P (scoreboard_request (league_id_of league league_map))
      = t (scoreboard_request (league_id_of league league_map)) ->
      fst (fetch_soccer_scores P league w)
      = fst (fetch_soccer_scores (with_transport P t) league w')).
Proof.
  repeat apply conj; intro H.
  - rewrite (fetch_news_absorbs P self query count w),
      (fetch_news_absorbs (with_transport P t) self query count w').
    cbn [transport with_transport]. rewrite H.
    destruct (obind _ _); reflexivity.
  - rewrite (fetch_nba_scores_absorbs P w), (fetch_nba_scores_absorbs (with_transport P t) w').
    cbn [transport with_transport date_iso]. rewrite H.
    destruct (obind _ _); reflexivity.
  - destruct (league_id_of league league_map) as [|c rest] eqn:Hl.
    + rewrite (fetch_soccer_scores_unknown P league w Hl),
        (fetch_soccer_scores_unknown (with_transport P t) league w' Hl). reflexivity.
    + rewrite (fetch_soccer_scores_absorbs P league c rest Hl w),
        (fetch_soccer_scores_absorbs (with_transport P t) league c rest Hl w').
      cbn [transport with_transport]. rewrite H.
      destruct (obind _ _); reflexivity.
Qed.

(** X3. When the part after the header returns, its text is the rendering of
    one group of records per configured section, in configured order:
    the nine news titles, the NBA scoreboard, the six league names. *)
Theorem sections_follow_configuration (P : platform) (self : generator) (html out : string)
        (w w' : world) :
  digest_sections P self html w = (Return out, w') ->
  exists d,
    TwoPhase.aggregate P self w = (Return d, w')
    /\ TwoPhase.render P d html = Return out
    /\ map fst (TwoPhase.news d) = map fst news_sections
    /\ map fst (TwoPhase.soccer d) = map fst soccer_leagues.
Proof.
  intro H. pose proof (digest_sections_factors P self html w) as Hf.
  rewrite H in Hf. unfold TwoPhase.generate, TwoPhase.aggregate in *.
  destruct (aggregate_news_returns P self news_sections w) as (sections & w1 & Ha).
  destruct (fetch_nba_scores_returns P w1) as (sb & w2 & Hn).
  destruct (soccer_loop_factors P soccer_leagues EmptyString w2) as (leagues & w3 & Hb & _).
  rewrite (bind_returns (bind (TwoPhase.aggregate_news P self news_sections) _) _ w w3
             {| TwoPhase.news := sections; TwoPhase.nba := sb; TwoPhase.soccer := leagues |})
    in Hf.
  2:{ rewrite (bind_returns _ _ _ _ _ Ha), (bind_returns _ _ _ _ _ Hn),
        (bind_returns _ _ _ _ _ Hb). reflexivity. }
  unfold lift in Hf. injection Hf as Hr <-.
  exists {| TwoPhase.news := sections; TwoPhase.nba := sb; TwoPhase.soccer := leagues |}.
  split.
  - rewrite (bind_returns _ _ _ _ _ Ha), (bind_returns _ _ _ _ _ Hn),
      (bind_returns _ _ _ _ _ Hb). reflexivity.
  - split; [exact Hr|]. split.
    + exact (aggregate_news_labels P self _ _ _ _ Ha).
    + exact (aggregate_soccer_labels P _ _ _ _ Hb).
Qed.

Lemma sections_follow_configuration_witness :
  exists out w',
    digest_sections (Demo.platform_with Demo.quiet) Demo.self EmptyString empty_world
      = (Return out, w')
    /\ exists d,
         TwoPhase.aggregate (Demo.platform_with Demo.quiet) Demo.self empty_world
           = (Return d, w')
         /\ TwoPhase.render (Demo.platform_with Demo.quiet) d EmptyString = Return out
         /\ map fst (TwoPhase.news d) = map fst news_sections
         /\ map fst (TwoPhase.soccer d) = map fst soccer_leagues.
Proof.
  eexists. eexists. split; [vm_compute; reflexivity|].
  apply (sections_follow_configuration (Demo.platform_with Demo.quiet) Demo.self
           EmptyString _ empty_world _).
  vm_compute. reflexivity.
Defined.

(** X4. A league whose scoreboard lists no event is rendered as its heading
    followed by the placeholder. *)
Theorem empty_scoreboard_placeholder (P : platform) (league_name league : string)
        (c : ascii) (rest : string) (html : string) (w : world) (data : value) :
  league_id_of league league_map = String c rest ->
  transport P (scoreboard_request (String c rest)) = Return data ->
  dict_get data "events" (VList []) = Return (VList []) ->
  league_section P (league_name, league) html w =
  (Return ((html ++ league_heading league_name) ++ soccer_placeholder),
   after_request w (scoreboard_request (String c rest)) []).
Proof.
  intros Hl Ht He. unfold league_section.
  erewrite bind_returns.
  2:{ rewrite (fetch_soccer_scores_absorbs P league c rest Hl w), Ht. cbn [obind].
      unfold top_games_of, top_events. rewrite He. reflexivity. }
  reflexivity.
Qed.

Lemma empty_scoreboard_placeholder_witness :
  league_section (Demo.platform_with Demo.empty_scoreboards) ("FA Cup", "fa-cup")
    EmptyString empty_world =
  (Return ("<h3>FA Cup</h3>" ++ nl
           ++ "<p style='color: #999;'>No matches to display.</p>" ++ nl),
   {| stdout := []; requests := [scoreboard_request "soccer/eng.fa"]; outbox := [] |}).
Proof.
  exact (empty_scoreboard_placeholder (Demo.platform_with Demo.empty_scoreboards)
           "FA Cup" "fa-cup" "s" "occer/eng.fa" EmptyString empty_world Demo.no_events
           eq_refl eq_refl eq_refl).
Defined.

(* ================================================================== *)
(** * Configuration, the header and delivery *)
(* ================================================================== *)

(** X5. [__init__] builds a generator exactly when the four required
    settings are present and not empty: the generator then holds their
    values, and the optional sports key or the empty string.  Otherwise
    it raises [ValueError], and one of the four is absent or empty. *)
Theorem init_requires_four_settings (P : platform) :
  match init P with
  | Return g =>
      environ P "NEWS_API_KEY" = Some (news_api_key g)
      /\ environ P "SENDER_EMAIL" = Some (sender_email g)
      /\ environ P "SENDER_PASSWORD" = Some (sender_password g)
      /\ environ P "RECIPIENT_EMAIL" = Some (recipient_email g)
      /\ sports_api_key g = or_empty (environ P "SPORTS_API_KEY")
      /\ news_api_key g <> EmptyString
      /\ sender_email g <> EmptyString
      /\ sender_password g <> EmptyString
      /\ recipient_email g <> EmptyString
  | Raise e =>
      e = ValueError "Missing required environment variables"
      /\ exists name, In name required_settings /\ truthy (environ P name) = false
  end.
Proof.
  unfold init.
  destruct (environ P "NEWS_API_KEY") as [[|c1 s1]|] eqn:E1;
    destruct (environ P "SENDER_EMAIL") as [[|c2 s2]|] eqn:E2;
    destruct (environ P "SENDER_PASSWORD") as [[|c3 s3]|] eqn:E3;
    destruct (environ P "RECIPIENT_EMAIL") as [[|c4 s4]|] eqn:E4;
    cbn;
    try (repeat apply conj; solve [reflexivity | discriminate]);
    (split; [reflexivity|]);
    first [ exists "NEWS_API_KEY"; split; [simpl; tauto | rewrite E1; reflexivity]
          | exists "SENDER_EMAIL"; split; [simpl; tauto | rewrite E2; reflexivity]
          | exists "SENDER_PASSWORD"; split; [simpl; tauto | rewrite E3; reflexivity]
          | exists "RECIPIENT_EMAIL"; split; [simpl; tauto | rewrite E4; reflexivity] ].
Qed.

(** X6. The header template cannot be formatted, whatever positional
    arguments it is given: its first style rule is read as a replacement
    field named [ font-family].  So [generate_html_digest] raises that
    [KeyError] in every world and leaves the world as it found it: no
    request issued, nothing printed, nothing sent. *)
Theorem header_never_formats :
  (forall ff args,
      Format.format ff args header_template = Raise (KeyError (VStr " font-family")))
  /\ (forall P self w,
         generate_html_digest P self w = (Raise (KeyError (VStr " font-family")), w)).
Proof.
  split.
  - intros ff args. vm_compute. reflexivity.
  - intros P self w. apply generate_html_digest_raises.
Qed.

(** X7. Everything [main] does.  It exits with status 1 having issued no
    request and sent no message.  With the four required settings
    present it prints the line announcing the generation and then the
    fatal error of the header; with one of them absent or empty it
    prints the fatal error of [__init__] alone. *)
Theorem main_transcript (P : platform) (w : world) :
  main P w =
  (1,
   {| stdout :=
        (stdout w
         ++ (if forallb truthy (map (environ P) required_settings)
             then ["Generating daily news digest...";
                   ("Fatal error: " ++ str_of_exn P (KeyError (VStr " font-family")))%string]
             else [("Fatal error: "
                    ++ str_of_exn P (ValueError "Missing required environment variables"))%string]))%list;
      requests := requests w;
      outbox := outbox w |}).
Proof.
  rewrite main_exits_1. unfold init. cbn [map required_settings].
  destruct (forallb truthy _); [rewrite <- app_assoc|]; reflexivity.
Qed.

(** X8. [send_email] hands exactly one message to the mail server: from
    the sender to the recipient, with the dated subject and the text it
    was given as body.  It returns, having printed the success line,
    exactly when the server took the message and the session closed
    cleanly.  Any exception of the block is printed in the error line
    and raised again, the same one; the server has then taken the
    message only if the exception came from closing the session. *)
Theorem send_email_delivers_or_reraises (P : platform) (self : generator) (html : string)
        (w : world) :
  let m := {| msg_subject := "üì∞ Daily News Digest - " ++ date_long P;
              msg_from := sender_email self;
              msg_to := recipient_email self;
              msg_html := html |} in
  send_email P self html w =
  match smtp_send P (sender_email self) (sender_password self) m with
  | Accepted =>
      (Return tt,
       {| stdout := (stdout w ++ [("Email sent successfully to " ++ recipient_email self)%string])%list;
          requests := requests w;
          outbox := (outbox w ++ [m])%list |})
  | AcceptedThenRaised e =>
      (Raise e,
       {| stdout := (stdout w ++ [("Error sending email: " ++ str_of_exn P e)%string])%list;
          requests := requests w;
          outbox := (outbox w ++ [m])%list |})
  | Refused e =>
      (Raise e,
       {| stdout := (stdout w ++ [("Error sending email: " ++ str_of_exn P e)%string])%list;
          requests := requests w;
          outbox := outbox w |})
  end.
Proof.
  cbv zeta. unfold send_email, try_except, bind, smtp_deliver, digest_message, print, raise.
  destruct (smtp_send P _ _ _) as [|e|e]; reflexivity.
Qed.

(* ================================================================== *)
(** * What the section loops do to the world *)
(* ================================================================== *)

Lemma fetched_refl (w : world) : fetched w w [].
Proof.
  repeat split; try (symmetry; apply app_nil_r).
  exists []. repeat split; [symmetry; apply app_nil_r | constructor | simpl; lia].
Qed.

Lemma fetched_trans (w w1 w2 : world) (rs1 rs2 : list request) :
  fetched w w1 rs1 -> fetched w1 w2 rs2 -> fetched w w2 (rs1 ++ rs2).
Proof.
  intros (Hr1 & Ho1 & l1 & Hs1 & Hd1 & Hn1) (Hr2 & Ho2 & l2 & Hs2 & Hd2 & Hn2).
  split; [rewrite Hr2, Hr1; symmetry; apply app_assoc|].
  split; [congruence|].
  exists (l1 ++ l2)%list. split; [rewrite Hs2, Hs1; symmetry; apply app_assoc|].
  split; [apply Forall_app; split; assumption|].
  rewrite !length_app. lia.
Qed.

Lemma absorbs_fetched {A : Type} (P : platform) (adapter : M A) (r : request)
      (process : value -> outcome A) (empty : A) (diagnostic : exn -> string) (w : world) :
  absorbs P adapter r process empty diagnostic ->
  (forall e, is_diagnostic (diagnostic e) = true) ->
  fetched w (snd (adapter w)) [r].
Proof.
  intros H Hd. rewrite (H w).
  destruct (obind (transport P r) process) as [a|e]; cbn [snd after_request];
    (split; [reflexivity|]); (split; [reflexivity|]).
  - exists []. repeat split; [constructor | simpl; lia].
  - exists [diagnostic e]. repeat split; [constructor; [apply Hd | constructor] | simpl; lia].
Qed.

Lemma fetch_news_fetched (P : platform) (self : generator) (query : string) (count : Z)
      (w : world) :
  fetched w (snd (fetch_news P self query count w)) [news_request self query count].
Proof.
  eapply absorbs_fetched; [apply fetch_news_absorbs|]. intro e. reflexivity.
Qed.

Lemma fetch_nba_scores_fetched (P : platform) (w : world) :
  fetched w (snd (fetch_nba_scores P w)) [scoreboard_request "basketball/nba"].
Proof.
  eapply absorbs_fetched; [apply fetch_nba_scores_absorbs|]. intro e. reflexivity.
Qed.

Lemma fetch_soccer_scores_fetched (P : platform) (league_name league : string) (w : world) :
  fetched w (snd (fetch_soccer_scores P league w))
    (league_entry_requests (league_name, league)).
Proof.
  unfold league_entry_requests. cbn [snd].
  destruct (league_id_of league league_map) as [|c rest] eqn:Hl.
  - rewrite (fetch_soccer_scores_unknown P league w Hl). apply fetched_refl.
  - eapply absorbs_fetched; [apply fetch_soccer_scores_absorbs, Hl|]. intro e. reflexivity.
Qed.

Lemma news_loop_fetched (P : platform) (self : generator)
      (entries : list (string * (string * Z))) (html : string) (w : world) :
  match news_loop P self entries html w with
  | (Return _, w') => fetched w w' (map (news_entry_request self) entries)
  | (Raise _, w') =>
      exists k, 1 <= k <= List.length entries
                /\ fetched w w' (firstn k (map (news_entry_request self) entries))
  end.
Proof.
  revert html w. induction entries as [|[section_title [query count]] rest IH];
    intros html w.
  - apply fetched_refl.
  - cbn [news_loop map]. unfold news_section, bind, lift.
    pose proof (fetch_news_fetched P self query count w) as Hf.
    destruct (fetch_news_returns P self query count w) as (articles & w1 & Hw).
    rewrite Hw in Hf |- *. cbn [snd] in Hf.
    destruct (render_news_section P section_title articles html) as [html1|e].
    + specialize (IH html1 w1).
      destruct (news_loop P self rest html1 w1) as [[out|e] w2].
      * exact (fetched_trans _ _ _ _ _ Hf IH).
      * destruct IH as (k & Hk & IH). exists (S k). split; [simpl; lia|].
        exact (fetched_trans _ _ _ _ _ Hf IH).
    + exists 1. split; [simpl; lia|]. exact Hf.
Qed.

Lemma soccer_loop_fetched (P : platform) (entries : list (string * string))
      (html : string) (w : world) :
  fetched w (snd (soccer_loop P entries html w)) (flat_map league_entry_requests entries).
Proof.
  revert html w. induction entries as [|[league_name league_id] rest IH]; intros html w.
  - apply fetched_refl.
  - cbn [soccer_loop flat_map]. unfold league_section, bind, ret.
    pose proof (fetch_soccer_scores_fetched P league_name league_id w) as Hf.
    destruct (fetch_soccer_scores_never_raises P league_id w) as (gs & w1 & Hw).
    rewrite Hw in Hf |- *. cbn [snd] in Hf.
    exact (fetched_trans _ _ _ _ _ Hf (IH _ w1)).
Qed.

Lemma firstn_news_plan (self : generator) (k : nat) :
  k <= 9 ->
  firstn k (planned_requests self) = firstn k (map (news_entry_request self) news_sections).
Proof.
  intro Hk. unfold planned_requests. rewrite firstn_app.
  replace (k - List.length (map (news_entry_request self) news_sections)) with 0
    by (rewrite length_map; simpl; lia).
  apply app_nil_r.
Qed.

(** The section part in one statement: a full pass when it returns, a
    pass cut in the news sections when it raises. *)
Lemma digest_sections_fetched (P : platform) (self : generator) (html : string) (w : world) :
  match digest_sections P self html w with
  | (Return _, w') => fetched w w' (planned_requests self)
  | (Raise _, w') =>
      exists k, 1 <= k <= 9 /\ fetched w w' (firstn k (planned_requests self))
  end.
Proof.
  unfold digest_sections.
  pose proof (news_loop_fetched P self news_sections html w) as Hn.
  destruct (news_loop P self news_sections html w) as [[out1|e] w1] eqn:Hloop.
  - destruct (nba_section_factors P out1 w1) as (sb & w2 & Hf & Hs).
    pose proof (fetch_nba_scores_fetched P w1) as Hb. rewrite Hf in Hb. cbn [snd] in Hb.
    pose proof (soccer_loop_fetched P soccer_leagues
                  (render_nba_section P sb (out1 ++ nba_heading) ++ soccer_heading) w2) as Hl.
    destruct (soccer_loop_factors P soccer_leagues
                (render_nba_section P sb (out1 ++ nba_heading) ++ soccer_heading) w2)
      as (leagues & w3 & _ & Hw3).
    rewrite Hw3 in Hl. cbn [snd] in Hl.
    rewrite (bind_returns _ _ _ _ _ Hloop), (bind_returns _ _ _ _ _ Hs),
      (bind_returns _ _ _ _ _ Hw3).
    unfold ret, planned_requests.
    exact (fetched_trans _ _ _ _ _ Hn (fetched_trans _ _ _ _ _ Hb Hl)).
  - rewrite (bind_raises _ _ _ _ _ Hloop).
    destruct Hn as (k & Hk & Hn). exists k. split; [exact Hk|].
    rewrite firstn_news_plan by exact (proj2 Hk). exact Hn.
Qed.

(** X9. The section part of [generate_html_digest] issues a fixed
    sequence of requests: the nine news searches in configured order,
    the NBA scoreboard, then the six league scoreboards, sixteen in all,
    each once and whatever the providers answer; when the rendering of a
    news section raises, the sequence stops after that section's
    request.  Every request carries the timeout of 10, none goes to the
    NFL scoreboard, and only the news searches carry parameters (the API
    key among them). *)
Theorem sections_issue_the_planned_requests (P : platform) (self : generator)
        (html : string) (w : world) :
  match digest_sections P self html w with
  | (Return _, w') => requests w' = (requests w ++ planned_requests self)%list
  | (Raise _, w') =>
      exists k, 1 <= k <= 9
                /\ requests w' = (requests w ++ firstn k (planned_requests self))%list
  end
  /\ List.length (planned_requests self) = 16
  /\ Forall (fun r => timeout r = 10%Z
                      /\ url r <> url (scoreboard_request "football/nfl")
                      /\ (params r <> [] -> url r = "https://newsapi.org/v2/everything"
                                            /\ lookup "apiKey" (params r)
                                               = Some (VStr (news_api_key self))))
       (planned_requests self).
Proof.
  split; [|split; [reflexivity|]].
  - pose proof (digest_sections_fetched P self html w) as H.
    destruct (digest_sections P self html w) as [[out|e] w'].
    + exact (proj1 H).
    + destruct H as (k & Hk & Hr & _). exists k. split; assumption.
  - unfold planned_requests. cbn.
    repeat (apply Forall_cons;
            [split; [reflexivity|];
             split; [discriminate|];
             first [ intros _; split; reflexivity
                   | intro H; exfalso; apply H; reflexivity ]|]).
    apply Forall_nil.
Qed.

(** X10. The section part of [generate_html_digest] sends no message and
    prints nothing but the diagnostics of the adapters: every line it
    adds to the output starts with [Error fetching], and there is at
    most one per request, so at most sixteen. *)
Theorem sections_print_only_diagnostics (P : platform) (self : generator)
        (html : string) (w : world) :
  outbox (snd (digest_sections P self html w)) = outbox w
  /\ exists lines,
       stdout (snd (digest_sections P self html w)) = (stdout w ++ lines)%list
       /\ Forall (fun line => is_diagnostic line = true) lines
       /\ List.length lines <= 16.
Proof.
  pose proof (digest_sections_fetched P self html w) as H.
  destruct (digest_sections P self html w) as [[out|e] w']; cbn [snd].
  - destruct H as (_ & Ho & lines & Hs & Hd & Hn). split; [exact Ho|].
    exists lines. split; [exact Hs|]. split; [exact Hd|]. exact Hn.
  - destruct H as (k & Hk & _ & Ho & lines & Hs & Hd & Hn). split; [exact Ho|].
    exists lines. split; [exact Hs|]. split; [exact Hd|].
    rewrite length_firstn in Hn. lia.
Qed.

(* ================================================================== *)
(** * The text only grows *)
(* ================================================================== *)

Lemma append_assoc (a b c : string) : (a ++ b) ++ c = a ++ (b ++ c).
Proof. induction a as [|x a IH]; simpl; [reflexivity | now rewrite IH]. Qed.

Lemma appends_compose (f g : string -> M string) :
  appends f -> appends g -> appends (fun html => bind (f html) g).
Proof.
  intros Hf Hg html w. unfold bind. rewrite (Hf html w).
  destruct (f EmptyString w) as [[b1|e] w1]; [|reflexivity].
  rewrite (Hg (html ++ b1) w1), (Hg b1 w1).
  destruct (g EmptyString w1) as [[b2|e] w2]; [rewrite append_assoc|]; reflexivity.
Qed.

Lemma render_articles_appends (P : platform) (articles : list article) (html : string) :
  render_articles P articles html =
  match render_articles P articles EmptyString with
  | Return body => Return (html ++ body)
  | Raise e => Raise e
  end.
Proof.
  revert html. induction articles as [|a rest IH]; intro html; cbn [render_articles].
  - induction html as [|c html IHh]; simpl; [reflexivity|]. congruence.
  - destruct (article_block P a) as [b|e]; cbn [obind]; [|reflexivity].
    rewrite (IH (html ++ b)), (IH (EmptyString ++ b)). cbn [append].
    destruct (render_articles P rest EmptyString) as [body|e];
      [rewrite append_assoc|]; reflexivity.
Qed.

Lemma append_empty (s : string) : s ++ EmptyString = s.
Proof. induction s as [|c s IH]; simpl; [reflexivity | now rewrite IH]. Qed.

Lemma render_news_section_appends (P : platform) (section_title : string)
      (articles : list article) (html : string) :
  render_news_section P section_title articles html =
  match render_news_section P section_title articles EmptyString with
  | Return body => Return (html ++ body)
  | Raise e => Raise e
  end.
Proof.
  unfold render_news_section. destruct articles as [|a rest].
  - cbn [append]. rewrite append_assoc. reflexivity.
  - rewrite (render_articles_appends P (a :: rest) (html ++ _)),
      (render_articles_appends P (a :: rest) (EmptyString ++ _)). cbn [append].
    destruct (render_articles P (a :: rest) EmptyString) as [body|e];
      [rewrite append_assoc|]; reflexivity.
Qed.

Lemma render_games_appends (block : game -> string) (gs : list game) (html : string) :
  render_games block gs html = html ++ render_games block gs EmptyString.
Proof.
  revert html. induction gs as [|g rest IH]; intro html; cbn [render_games].
  - symmetry. apply append_empty.
  - rewrite (IH (html ++ block g)), (IH (EmptyString ++ block g)). cbn [append].
    apply append_assoc.
Qed.

Lemma news_section_appends (P : platform) (self : generator)
      (entry : string * (string * Z)) :
  appends (news_section P self entry).
Proof.
  destruct entry as [section_title [query count]]. intros html w.
  unfold news_section, bind, lift.
  destruct (fetch_news P self query count w) as [[articles|e] w1]; [|reflexivity].
  rewrite (render_news_section_appends P section_title articles html).
  destruct (render_news_section P section_title articles EmptyString); reflexivity.
Qed.

Lemma news_loop_appends (P : platform) (self : generator)
      (entries : list (string * (string * Z))) :
  appends (news_loop P self entries).
Proof.
  induction entries as [|entry rest IH].
  - intros html w. cbn. rewrite append_empty. reflexivity.
  - exact (appends_compose _ _ (news_section_appends P self entry) IH).
Qed.

Lemma nba_section_appends (P : platform) : appends (nba_section P).
Proof.
  intros html w. unfold nba_section, bind, ret.
  destruct (fetch_nba_scores P w) as [[sb|e] w1]; [|reflexivity].
  unfold render_nba_section. cbn [append].
  destruct (games sb) as [|g rest].
  - rewrite append_assoc. reflexivity.
  - rewrite (render_games_appends _ _ (html ++ _)), (render_games_appends _ _ nba_heading).
    rewrite append_assoc. reflexivity.
Qed.

Lemma league_section_appends (P : platform) (entry : string * string) :
  appends (league_section P entry).
Proof.
  destruct entry as [league_name league_id]. intros html w.
  unfold league_section, bind, ret.
  destruct (fetch_soccer_scores P league_id w) as [[gs|e] w1]; [|reflexivity].
  unfold render_league_section. cbn [append].
  destruct gs as [|g rest].
  - rewrite append_assoc. reflexivity.
  - rewrite (render_games_appends _ _ (html ++ _)),
      (render_games_appends _ _ (league_heading league_name)).
    rewrite append_assoc. reflexivity.
Qed.

Lemma soccer_loop_appends (P : platform) (entries : list (string * string)) :
  appends (soccer_loop P entries).
Proof.
  induction entries as [|entry rest IH].
  - intros html w. cbn. rewrite append_empty. reflexivity.
  - exact (appends_compose _ _ (league_section_appends P entry) IH).
Qed.

Lemma digest_sections_appends (P : platform) (self : generator) :
  appends (digest_sections P self).
Proof.
  unfold digest_sections.
  apply appends_compose; [apply news_loop_appends|].
  apply appends_compose; [apply nba_section_appends|].
  apply (appends_compose (fun html => soccer_loop P soccer_leagues (html ++ soccer_heading))
           (fun html => ret (html ++ footer))).
  - intros html w. rewrite (soccer_loop_appends P soccer_leagues (html ++ soccer_heading) w),
      (soccer_loop_appends P soccer_leagues (EmptyString ++ soccer_heading) w).
    destruct (soccer_loop P soccer_leagues EmptyString w) as [[body|e] w1];
      [rewrite append_assoc|]; reflexivity.
  - intros html w. reflexivity.
Qed.

(** X11. The section part of [generate_html_digest] only appends.
    Started on a text it yields that text followed by exactly what it
    yields started on the empty text, with the same effects, or raises
    the same exception: what a section renders does not depend on what
    was rendered before it.  And what it yields ends with the footer. *)
Theorem sections_only_append (P : platform) (self : generator) (html : string) (w : world) :
  digest_sections P self html w =
  match digest_sections P self EmptyString w with
  | (Return body, w') => (Return (html ++ body), w')
  | (Raise e, w') => (Raise e, w')
  end
  /\ match digest_sections P self EmptyString w with
     | (Return body, _) => exists sections, body = sections ++ footer
     | (Raise _, _) => True
     end.
Proof.
  split; [apply digest_sections_appends|].
  unfold digest_sections, bind.
  destruct (news_loop P self news_sections EmptyString w) as [[h1|e] w1]; [|exact I].
  destruct (nba_section P h1 w1) as [[h2|e] w2]; [|exact I].
  destruct (soccer_loop P soccer_leagues (h2 ++ soccer_heading) w2) as [[h3|e] w3]; [|exact I].
  exists h3. reflexivity.
Qed.

(* ================================================================== *)
(** * Rendering a news section *)
(* ================================================================== *)

Lemma summary_text_cases (P : platform) (d : value) :
  match summary_text P d with
  | Return _ => sliceable d = true
  | Raise e => e = TypeError /\ sliceable d = false
  end.
Proof. destruct d; cbn; auto. Qed.

(** X12. Rendering the articles of a news section raises exactly when
    the description of one of them cannot be sliced, that is when it is
    neither a string nor a list, and the exception is a [TypeError].
    Otherwise it returns the text it was given followed by one block per
    article, in order. *)
Theorem news_rendering_needs_sliceable_descriptions (P : platform)
        (articles : list article) (html : string) :
  match render_articles P articles html with
  | Return out =>
      forallb sliceable (map description articles) = true
      /\ exists blocks,
           Forall2 (fun a block => article_block P a = Return block) articles blocks
           /\ out = html ++ fold_right append EmptyString blocks
  | Raise e =>
      e = TypeError
      /\ exists a, In a articles /\ sliceable (description a) = false
  end.
Proof.
  revert html. induction articles as [|a rest IH]; intro html; cbn [render_articles].
  - split; [reflexivity|]. exists []. split; [constructor|].
    cbn. symmetry. apply append_empty.
  - unfold article_block at 1.
    pose proof (summary_text_cases P (description a)) as Hs.
    destruct (summary_text P (description a)) as [summary|e] eqn:Hsum; cbn [obind].
    + specialize (IH (html ++ article_template P a summary)).
      destruct (render_articles P rest (html ++ article_template P a summary))
        as [out|e].
      * destruct IH as (Hall & blocks & Hb & ->).
        split; [cbn; rewrite Hs; exact Hall|].
        exists (article_template P a summary :: blocks). split.
        -- constructor; [|exact Hb]. unfold article_block. rewrite Hsum. reflexivity.
        -- cbn. apply append_assoc.
      * destruct IH as (-> & b & Hin & Hb). split; [reflexivity|].
        exists b. split; [right; exact Hin | exact Hb].
    + destruct Hs as (-> & Hs). split; [reflexivity|].
      exists a. split; [left; reflexivity | exact Hs].
Qed.

(* ================================================================== *)
(** * Normal forms of the records *)
(* ================================================================== *)

Lemma dict_get_field_or (entries : list (string * value)) (k : string) (default : value) :
  dict_get (VDict entries) k default = Return (field_or entries k default).
Proof. unfold dict_get, field_or. destruct (lookup k entries); reflexivity. Qed.

(** X13. [fetch_news] builds a record exactly from an article that is an
    object whose source is absent or an object.  Every field of the
    record is then the value stored under its key, whatever that value
    is, or the empty string when the key is absent; the source is the
    name stored in the source object, or the empty string.  For any
    other article the loop body raises [AttributeError]. *)
Theorem article_of_normal_form (a : value) :
  match article_of a with
  | Return r =>
      exists entries named,
        a = VDict entries
        /\ field_or entries "source" (VDict []) = VDict named
        /\ r = {| title := field_or entries "title" (VStr "");
                  description := field_or entries "description" (VStr "");
                  article_url := field_or entries "url" (VStr "");
                  source := field_or named "name" (VStr "");
                  image := field_or entries "urlToImage" (VStr "");
                  publishedAt := field_or entries "publishedAt" (VStr "") |}
  | Raise e =>
      e = AttributeError
      /\ forall entries named,
           a = VDict entries -> field_or entries "source" (VDict []) <> VDict named
  end.
Proof.
  destruct a as [| | | | |items|entries];
    try (cbn; split; [reflexivity | intros entries named H; discriminate H]).
  unfold article_of. rewrite !dict_get_field_or. cbn [obind].
  destruct (field_or entries "source" (VDict [])) as [| | | | |items|named] eqn:Hs;
    try (cbn; split; [reflexivity|];
         intros entries' named' H; injection H as <-; rewrite Hs; discriminate).
  rewrite dict_get_field_or. cbn [obind].
  exists entries, named. repeat split. exact Hs.
Qed.

(** X14. The score fetchers build a record from an event whose first
    competition lists two competitors that are objects, with their teams
    and the status chain absent or objects: each field is the value
    stored in the payload, or its default when the key is absent, the
    empty string for a team name, a dash for a score and [TBD] for the
    status. *)
Theorem game_of_normal_form (event competition e0 e1 t0 t1 st ty : list (string * value))
        (others rest : list value) :
  lookup "competitions" event = Some (VList (VDict competition :: others)) ->
  lookup "competitors" competition = Some (VList (VDict e0 :: VDict e1 :: rest)) ->
  field_or e0 "team" (VDict []) = VDict t0 ->
  field_or e1 "team" (VDict []) = VDict t1 ->
  field_or competition "status" (VDict []) = VDict st ->
  field_or st "type" (VDict []) = VDict ty ->
  game_of (VDict event) =
  Return (Some {| home := field_or t0 "displayName" (VStr "");
                  away := field_or t1 "displayName" (VStr "");
                  home_score := field_or e0 "score" (VStr "-");
                  away_score := field_or e1 "score" (VStr "-");
                  status := field_or ty "description" (VStr "TBD") |}).
Proof.
  intros Hc Hcs H0 H1 Hst Hty.
  assert (first_competition (VDict event) = Return (VDict competition)) as Hfirst.
  { unfold first_competition. rewrite (dict_get_present _ _ _ _ Hc). reflexivity. }
  assert (team_name (VDict e0) = Return (field_or t0 "displayName" (VStr ""))) as Hn0.
  { unfold team_name. rewrite dict_get_field_or, H0. cbn [obind].
    apply dict_get_field_or. }
  assert (team_name (VDict e1) = Return (field_or t1 "displayName" (VStr ""))) as Hn1.
  { unfold team_name. rewrite dict_get_field_or, H1. cbn [obind].
    apply dict_get_field_or. }
  assert (status_of (VDict competition) = Return (field_or ty "description" (VStr "TBD")))
    as Hstatus.
  { unfold status_of. rewrite dict_get_field_or, Hst. cbn [obind].
    rewrite dict_get_field_or, Hty. cbn [obind]. apply dict_get_field_or. }
  unfold game_of. rewrite Hfirst. cbn [obind].
  rewrite (dict_get_present _ _ _ _ Hcs). cbn [obind py_len List.length Nat.leb subscript nth_error].
  rewrite Hn0, Hn1. cbn [obind]. rewrite !dict_get_field_or. cbn [obind].
  rewrite Hstatus. reflexivity.
Qed.

Lemma game_of_normal_form_witness :
  game_of Cases.bare_event =
  Return (Some {| home := VStr ""; away := VStr ""; home_score := VStr "-";
                  away_score := VStr "-"; status := VStr "TBD" |}).
Proof.
  exact (game_of_normal_form
           [("competitions", VList [VDict [("competitors", VList [VDict []; VDict []])]])]
           [("competitors", VList [VDict []; VDict []])]
           [] [] [] [] [] [] [] []
           eq_refl eq_refl eq_refl eq_refl eq_refl eq_refl).
Defined.

(* ================================================================== *)
(** * One malformed item fails the whole fetch *)
(* ================================================================== *)

Lemma map_outcome_raises {A B : Type} (f : A -> outcome B) (l : list A) (a : A) (e : exn) :
  In a l -> f a = Raise e ->
  exists a' e', In a' l /\ f a' = Raise e' /\ map_outcome f l = Raise e'.
Proof.
  induction l as [|x rest IH]; intros Hin Ha; [destruct Hin|].
  cbn [map_outcome]. destruct (f x) as [y|ex] eqn:Hx; cbn [obind].
  - destruct Hin as [->|Hin]; [congruence|].
    destruct (IH Hin Ha) as (a' & e' & Hin' & Ha' & Hm).
    exists a', e'. rewrite Hm. repeat split; [right; exact Hin' | exact Ha'].
  - exists x, ex. repeat split; [left; reflexivity | exact Hx].
Qed.

Lemma filter_map_outcome_raises {A B : Type} (f : A -> outcome (option B)) (l : list A)
      (a : A) (e : exn) :
  In a l -> f a = Raise e -> exists e', filter_map_outcome f l = Raise e'.
Proof.
  induction l as [|x rest IH]; intros Hin Ha; [destruct Hin|].
  cbn [filter_map_outcome]. destruct (f x) as [y|ex] eqn:Hx; cbn [obind].
  - destruct Hin as [->|Hin]; [congruence|].
    destruct (IH Hin Ha) as (e' & Hm). exists e'. rewrite Hm. reflexivity.
  - exists ex. reflexivity.
Qed.

Lemma article_of_raises_attribute_error (a : value) (e : exn) :
  article_of a = Raise e -> e = AttributeError.
Proof.
  destruct a as [| | | | |items|entries]; cbn; try congruence.
  unfold article_of. rewrite !dict_get_field_or. cbn [obind].
  destruct (field_or entries "source" (VDict [])); try (cbn; congruence).
  rewrite dict_get_field_or. cbn. congruence.
Qed.

(** X15. [fetch_news] is all or nothing: when one of the articles within
    the cap is not an object, or has a source that is neither absent nor
    an object, the call returns no record at all, the well-formed
    articles of the payload included, and prints one diagnostic naming
    an [AttributeError]. *)
Theorem one_bad_article_empties_the_section (P : platform) (self : generator)
        (query : string) (cap : Z) (w : world) (data : value) (items : list value)
        (a : value) (e : exn) :
  (0 <= cap)%Z ->
  transport P (news_request self query cap) = Return data ->
  dict_get data "articles" (VList []) = Return (VList items) ->
  In a (firstn (Z.to_nat cap) items) ->
  article_of a = Raise e ->
  fetch_news P self query cap w =
  (Return [],
   after_request w (news_request self query cap)
     [fetch_news_diagnostic P query AttributeError]).
Proof.
  intros Hcap Ht Hd Hin Ha.
  rewrite (fetch_news_absorbs P self query cap w), Ht. cbn [obind].
  unfold articles_of. rewrite (listed_articles_list data cap items Hcap Hd). cbn [obind].
  destruct (map_outcome_raises article_of _ a e Hin Ha) as (a' & e' & _ & Ha' & ->).
  rewrite (article_of_raises_attribute_error a' e' Ha'). reflexivity.
Qed.

Lemma one_bad_article_empties_the_section_witness :
  fetch_news (Demo.platform_with Cases.mixed_us_news) Demo.self "US news" 5 empty_world =
  (Return [],
   {| stdout := ["Error fetching news for 'US news': error"];
      requests := [news_request Demo.self "US news" 5];
      outbox := [] |}).
Proof.
  refine (one_bad_article_empties_the_section (Demo.platform_with Cases.mixed_us_news)
            Demo.self "US news" 5 empty_world Cases.mixed_articles
            [Demo.headline "1"; Demo.no_source; Demo.headline "3"]
            Demo.no_source AttributeError _ eq_refl eq_refl _ eq_refl).
  - lia.
  - simpl. tauto.
Defined.

(** X16. [fetch_nba_scores] is all or nothing: when the loop body raises
    on one event of the payload, the call returns no game at all and
    prints one diagnostic. *)
Theorem one_bad_event_empties_the_scoreboard (P : platform) (w : world) (data : value)
        (events : list value) (event : value) (e : exn) :
  transport P (scoreboard_request "basketball/nba") = Return data ->
  dict_get data "events" (VList []) = Return (VList events) ->
  In event events ->
  game_of event = Raise e ->
  exists e',
    fetch_nba_scores P w =
    (Return {| games := []; date := Some (date_iso P) |},
     after_request w (scoreboard_request "basketball/nba")
       [("Error fetching NBA scores: " ++ str_of_exn P e')%string]).
Proof.
  intros Ht Hd Hin He.
  destruct (filter_map_outcome_raises game_of events event e Hin He) as (e' & Hm).
  exists e'. rewrite (fetch_nba_scores_absorbs P w), Ht. cbn [obind].
  unfold games_of. rewrite (all_events_list data events Hd). cbn [obind].
  rewrite Hm. reflexivity.
Qed.

Lemma one_bad_event_empties_the_scoreboard_witness :
  exists e',
    fetch_nba_scores (Demo.platform_with Cases.broken_nba) empty_world =
    (Return {| games := []; date := Some "2026-11-04" |},
     after_request empty_world (scoreboard_request "basketball/nba")
       [("Error fetching NBA scores: "
         ++ str_of_exn (Demo.platform_with Cases.broken_nba) e')%string]).
Proof.
  exact (one_bad_event_empties_the_scoreboard (Demo.platform_with Cases.broken_nba)
           empty_world Cases.broken_scoreboard
           [Demo.event "Celtics" "101" "Knicks" "99" "Final"; Cases.no_competition]
           Cases.no_competition IndexError eq_refl eq_refl
           (or_intror (or_introl eq_refl)) eq_refl).
Defined.

(** X17. What the loop of the score fetchers makes of an event at its
    edges.  An event with no competitions entry, or whose first
    competition has no competitors entry, is skipped without an error;
    an event whose list of competitions is empty raises [IndexError],
    and one whose competitions entry is null raises [TypeError]. *)
Theorem event_edge_cases (event : list (string * value)) :
  (lookup "competitions" event = None -> game_of (VDict event) = Return None)
  /\ (forall competition others,
         lookup "competitions" event = Some (VList (VDict competition :: others)) ->
         lookup "competitors" competition = None ->
         game_of (VDict event) = Return None)
  /\ (lookup "competitions" event = Some (VList []) ->
      game_of (VDict event) = Raise IndexError)
  /\ (lookup "competitions" event = Some VNone ->
      game_of (VDict event) = Raise TypeError).
Proof.
  repeat apply conj.
  - intro H. unfold game_of, first_competition.
    rewrite (dict_get_absent _ _ _ H). reflexivity.
  - intros competition others H Hc. unfold game_of, first_competition.
    rewrite (dict_get_present _ _ _ _ H). cbn [obind subscript nth_error].
    rewrite (dict_get_absent _ _ _ Hc). reflexivity.
  - intro H. unfold game_of, first_competition.
    rewrite (dict_get_present _ _ _ _ H). reflexivity.
  - intro H. unfold game_of, first_competition.
    rewrite (dict_get_present _ _ _ _ H). reflexivity.
Qed.

(** X18. How [fetch_news] takes the shape of the payload.  A payload
    that is an object without an articles entry, or with an empty list
    of articles, gives no record and no diagnostic.  An articles entry
    that cannot be sliced (null, a number, a boolean, an object) gives
    no record and the diagnostic of a [TypeError]; a payload that is not
    an object gives no record and the diagnostic of an
    [AttributeError]. *)
Theorem news_payload_shapes (P : platform) (self : generator) (query : string) (cap : Z)
        (w : world) (data : value) :
  transport P (news_request self query cap) = Return data ->
  (forall entries,
      data = VDict entries ->
      lookup "articles" entries = None \/ lookup "articles" entries = Some (VList []) ->
      fetch_news P self query cap w =
      (Return [], after_request w (news_request self query cap) []))
  /\ (forall entries listed,
         data = VDict entries ->
         lookup "articles" entries = Some listed ->
         sliceable listed = false ->
         fetch_news P self query cap w =
         (Return [],
          after_request w (news_request self query cap)
            [fetch_news_diagnostic P query TypeError]))
  /\ ((forall entries, data <> VDict entries) ->
      fetch_news P self query cap w =
      (Return [],
       after_request w (news_request self query cap)
         [fetch_news_diagnostic P query AttributeError])).
Proof.
  intro Ht. repeat apply conj.
  - intros entries -> H.
    rewrite (fetch_news_absorbs P self query cap w), Ht. cbn [obind].
    unfold articles_of, listed_articles.
    destruct H as [H|H];
      [rewrite (dict_get_absent _ _ _ H) | rewrite (dict_get_present _ _ _ _ H)];
      cbn [obind slice_to List.length]; rewrite firstn_nil; reflexivity.
  - intros entries listed -> H Hs.
    rewrite (fetch_news_absorbs P self query cap w), Ht. cbn [obind].
    unfold articles_of, listed_articles. rewrite (dict_get_present _ _ _ _ H).
    destruct listed; try discriminate Hs; reflexivity.
  - intro H.
    rewrite (fetch_news_absorbs P self query cap w), Ht. cbn [obind].
    destruct data; try reflexivity. exfalso. exact (H entries eq_refl).
Qed.

Lemma news_payload_shapes_witness :
  fetch_news (Demo.platform_with (fun _ => Return Cases.null_articles)) Demo.self
    "US news" 5 empty_world =
  (Return [],
   {| stdout := ["Error fetching news for 'US news': error"];
      requests := [news_request Demo.self "US news" 5];
      outbox := [] |}).
Proof.
  exact (proj1 (proj2 (news_payload_shapes
                         (Demo.platform_with (fun _ => Return Cases.null_articles))
                         Demo.self "US news" 5 empty_world Cases.null_articles eq_refl))
           [("articles", VNone)] VNone eq_refl eq_refl eq_refl).
Defined.

(* ================================================================== *)
(** * When the section part raises *)
(* ================================================================== *)

Lemma render_articles_sliceable (P : platform) (articles : list article) (html : string) :
  match render_articles P articles html with
  | Return _ => forallb sliceable (map description articles) = true
  | Raise e => e = TypeError /\ forallb sliceable (map description articles) = false
  end.
Proof.
  revert html. induction articles as [|a rest IH]; intro html; cbn [render_articles].
  - reflexivity.
  - unfold article_block.
    pose proof (summary_text_cases P (description a)) as Hs.
    destruct (summary_text P (description a)) as [summary|e]; cbn [obind map forallb].
    + rewrite Hs. cbn [andb]. apply IH.
    + destruct Hs as (-> & ->). split; reflexivity.
Qed.

Lemma render_news_section_sliceable (P : platform) (section_title : string)
      (articles : list article) (html : string) :
  match render_news_section P section_title articles html with
  | Return _ => forallb sliceable (map description articles) = true
  | Raise e => e = TypeError /\ forallb sliceable (map description articles) = false
  end.
Proof.
  unfold render_news_section. destruct articles as [|a rest]; [reflexivity|].
  apply render_articles_sliceable.
Qed.

Lemma render_news_sliceable (P : platform) (sections : list (string * list article))
      (html : string) :
  match TwoPhase.render_news P sections html with
  | Return _ =>
      forallb (fun sec => forallb sliceable (map description (snd sec))) sections = true
  | Raise e =>
      e = TypeError
      /\ forallb (fun sec => forallb sliceable (map description (snd sec))) sections = false
  end.
Proof.
  revert html. induction sections as [|[section_title articles] rest IH]; intro html;
    cbn [TwoPhase.render_news forallb snd].
  - reflexivity.
  - pose proof (render_news_section_sliceable P section_title articles html) as Hs.
    destruct (render_news_section P section_title articles html) as [html1|e];
      cbn [obind].
    + rewrite Hs. cbn [andb]. apply IH.
    + destruct Hs as (-> & ->). split; reflexivity.
Qed.

(** X19. The section part of [generate_html_digest] returns exactly when
    the description of every article the news adapters returned can be
    sliced (is a string or a list); it then leaves the world the fetches
    left.  Otherwise it raises, and the only exception it can raise is
    the [TypeError] of the slice: the adapters and the score blocks
    never raise. *)
Theorem sections_raise_only_on_descriptions (P : platform) (self : generator)
        (html : string) (w w' : world) (d : TwoPhase.digest) :
  TwoPhase.aggregate P self w = (Return d, w') ->
  match digest_sections P self html w with
  | (Return _, w1) =>
      w1 = w'
      /\ forallb (fun sec => forallb sliceable (map description (snd sec)))
           (TwoPhase.news d) = true
  | (Raise e, _) =>
      e = TypeError
      /\ forallb (fun sec => forallb sliceable (map description (snd sec)))
           (TwoPhase.news d) = false
  end.
Proof.
  intro Ha. pose proof (digest_sections_factors P self html w) as Hf.
  unfold TwoPhase.generate in Hf. rewrite (bind_returns _ _ _ _ _ Ha) in Hf.
  unfold lift, TwoPhase.render in Hf.
  pose proof (render_news_sliceable P (TwoPhase.news d) html) as Hs.
  destruct (digest_sections P self html w) as [[out|e] w1].
  - destruct (TwoPhase.render_news P (TwoPhase.news d) html) as [h|e];
      cbn [obind] in Hf; [|discriminate Hf].
    injection Hf as _ <-. split; [reflexivity | exact Hs].
  - cbn [fst] in Hf.
    destruct (TwoPhase.render_news P (TwoPhase.news d) html) as [h|e'];
      cbn [obind] in Hf; [discriminate Hf|].
    injection Hf as <-. exact Hs.
Qed.

Lemma sections_raise_only_on_descriptions_witness :
  exists d w',
    TwoPhase.aggregate (Demo.platform_with Demo.us_news_null_description) Demo.self
      empty_world = (Return d, w')
    /\ match digest_sections (Demo.platform_with Demo.us_news_null_description) Demo.self
               EmptyString empty_world with
       | (Return _, w1) =>
           w1 = w'
           /\ forallb (fun sec => forallb sliceable (map description (snd sec)))
                (TwoPhase.news d) = true
       | (Raise e, _) =>
           e = TypeError
           /\ forallb (fun sec => forallb sliceable (map description (snd sec)))
                (TwoPhase.news d) = false
       end.
Proof.
  eexists. eexists. split; [vm_compute; reflexivity|].
  apply (sections_raise_only_on_descriptions
           (Demo.platform_with Demo.us_news_null_description) Demo.self EmptyString
           empty_world).
  vm_compute. reflexivity.
Defined.
